(** * Resumable segmented transcription (src/transcribe.py)

    A shallow embedding of the pure and the state-passing parts of
    [SmartTranscriber]: the content filter, the segmentation loop with its
    timestamp globalisation, the checkpoint file (creation, append, resume
    lookup, completeness check), the fallback policy of the transcription
    adapter and the combination of per-segment results.

    Conventions.
    - A Python [str] is a list of Unicode code points ([str := list N]), so
      that [len], indexing and character equality are those of Python.
      Literals are written as UTF-8 Rocq strings and decoded by [u].
    - Python floats are idealised as rationals ([Q]); [int(x)] is truncation
      toward zero.  Formatting with [:.1f], [float(...)] and
      [datetime.strptime] are library functions and enter as parameters.
    - External collaborators (ffmpeg, the speech models, the clock, the file
      system) enter as oracles; exceptions are explicit ([outcome]).  The
      operations on the checkpoint file may raise one by one; an operation
      that raises is taken to leave the file as it was. *)

From Stdlib Require Import String Ascii.
From Stdlib Require Import List Bool Arith ZArith NArith QArith Qround Lia Lqa.
From Stdlib Require Import Sorting.Permutation Sorting.Sorted.
Import ListNotations.

Set Implicit Arguments.

(* ------------------------------------------------------------------ *)
(** ** Python strings *)

Module PyStr.

Definition char := N.
Definition str := list char.

Definition char_eqb (a b : char) : bool := N.eqb a b.

Fixpoint str_eqb (a b : str) : bool :=
  match a, b with
  | [], [] => true
  | x :: a', y :: b' => char_eqb x y && str_eqb a' b'
  | _, _ => false
  end.

(** UTF-8 decoding of a byte list, used only to write literals. *)
Fixpoint utf8_decode (bs : list N) : str :=
  match bs with
  | [] => []
  | b0 :: r0 =>
    if (b0 <? 128)%N then b0 :: utf8_decode r0
    else match r0 with
    | [] => [b0]
    | b1 :: r1 =>
      if (b0 <? 224)%N then
        ((b0 - 192) * 64 + (b1 - 128))%N :: utf8_decode r1
      else match r1 with
      | [] => [b0; b1]
      | b2 :: r2 =>
        if (b0 <? 240)%N then
          ((b0 - 224) * 4096 + (b1 - 128) * 64 + (b2 - 128))%N
            :: utf8_decode r2
        else match r2 with
        | [] => [b0; b1; b2]
        | b3 :: r3 =>
          ((b0 - 240) * 262144 + (b1 - 128) * 4096
           + (b2 - 128) * 64 + (b3 - 128))%N :: utf8_decode r3
        end
      end
    end
  end.

Definition u (s : string) : str :=
  utf8_decode (map N_of_ascii (list_ascii_of_string s)).

(** A literal: the decoded text itself. *)
Notation "'py' s" :=
  (ltac:(let v := eval vm_compute in (u s%string) in exact v))
  (at level 9, s at level 0, only parsing).

(** [str.isspace] on one character: the code points Python treats as
    whitespace in [strip()] and [split()]. *)
Definition isspace (c : char) : bool :=
  ((9 <=? c) && (c <=? 13) || (28 <=? c) && (c <=? 32)
   || (c =? 133) || (c =? 160) || (c =? 5760)
   || (8192 <=? c) && (c <=? 8202)
   || (c =? 8232) || (c =? 8233) || (c =? 8239) || (c =? 8287)
   || (c =? 12288))%N.

Fixpoint lstrip (s : str) : str :=
  match s with
  | [] => []
  | c :: s' => if isspace c then lstrip s' else s
  end.

Definition rstrip (s : str) : str := rev (lstrip (rev s)).

(** [s.strip()] *)
Definition strip (s : str) : str := rstrip (lstrip s).

(** [s.split()]: the maximal runs of non-whitespace characters.  [cur] holds
    the current run, reversed. *)
Fixpoint split_ws_go (cur : str) (s : str) : list str :=
  match s with
  | [] => match cur with [] => [] | _ => [rev cur] end
  | c :: s' =>
    if isspace c
    then match cur with
         | [] => split_ws_go [] s'
         | _ => rev cur :: split_ws_go [] s'
         end
    else split_ws_go (c :: cur) s'
  end.

Definition split_ws (s : str) : list str := split_ws_go [] s.

(** [s.startswith(p)] *)
Fixpoint startswith (p s : str) : bool :=
  match p, s with
  | [], _ => true
  | x :: p', y :: s' => char_eqb x y && startswith p' s'
  | _ :: _, [] => false
  end.

(** [s.endswith(p)] *)
Definition endswith (p s : str) : bool := startswith (rev p) (rev s).

(** [sub in s] *)
Fixpoint contains (sub s : str) : bool :=
  startswith sub s ||
  match s with
  | [] => false
  | _ :: s' => contains sub s'
  end.

(** [s.split(sep)] for a non-empty separator: left-to-right,
    non-overlapping.  [skip] counts the separator characters still to drop. *)
Fixpoint split_go (sep : str) (skip : nat) (cur : str) (s : str) : list str :=
  match s with
  | [] => [rev cur]
  | c :: s' =>
    match skip with
    | S k => split_go sep k cur s'
    | O =>
      if startswith sep s
      then rev cur :: split_go sep (length sep - 1) [] s'
      else split_go sep 0 (c :: cur) s'
    end
  end.

Definition split (sep s : str) : list str := split_go sep 0 [] s.

(** [s.replace(old, '')] for a non-empty [old]. *)
Fixpoint remove_go (old : str) (skip : nat) (s : str) : str :=
  match s with
  | [] => []
  | c :: s' =>
    match skip with
    | S k => remove_go old k s'
    | O =>
      if startswith old s
      then remove_go old (length old - 1) s'
      else c :: remove_go old 0 s'
    end
  end.

Definition remove_all (old s : str) : str := remove_go old 0 s.

(** [sep.join(l)] *)
Fixpoint join (sep : str) (l : list str) : str :=
  match l with
  | [] => []
  | [x] => x
  | x :: l' => x ++ sep ++ join sep l'
  end.

End PyStr.
Import PyStr.

(* ------------------------------------------------------------------ *)
(** ** Content filter: [_filter_repetitive_content] *)

Module Filter.

(** The denylist of rule 1, as written in the source. *)
Definition fillers : list str :=
  Eval vm_compute in
    map u ["好"; "A"; "啊"; "嗯"; "哦"; "呃"; "嗯嗯"; "哈哈"; "呵"]%string.

Definition in_list (w : str) (l : list str) : bool := existsb (str_eqb w) l.

(** [text[i]] *)
Definition at_ (text : str) (i : nat) : char := nth i text 0%N.

(** The scan of rule 3:
    [for i in range(len(text) - 3):
       if text[i] == text[i+1] == text[i+2] == text[i+3]: return ""]. *)
Definition has_run4 (text : str) : bool :=
  existsb
    (fun i => char_eqb (at_ text i) (at_ text (i + 1))
              && char_eqb (at_ text (i + 1)) (at_ text (i + 2))
              && char_eqb (at_ text (i + 2)) (at_ text (i + 3)))
    (seq 0 (length text - 3)).

Definition rule1 (words : list str) : bool :=
  match words with
  | [word] => (length word =? 1) && in_list word fillers
  | _ => false
  end.

(** [len(words) >= 2 and all(word == first_word for word in words[:2])] *)
Definition rule2 (words : list str) : bool :=
  match words with
  | first_word :: w2 :: _ =>
      forallb (fun word => str_eqb word first_word) [first_word; w2]
  | _ => false
  end.

Definition rule3 (text : str) : bool :=
  (5 <? length text) && has_run4 text.

Definition _filter_repetitive_content (text : str) : str :=
  match text with
  | [] => text
  | _ =>
    if length (strip text) <? 3 then text
    else
      let words := split_ws (strip text) in
      if rule1 words then []
      else if rule2 words then []
      else if rule3 text then []
      else text
  end.

End Filter.

(* ------------------------------------------------------------------ *)
(** ** Numbers, exceptions and transcript data *)

Module Data.

(** [int(x)] on a float: truncation toward zero. *)
Definition py_int (x : Q) : Z := Z.quot (Qnum x) (Zpos (Qden x)).

(** [range(n)] *)
Definition range (n : Z) : list Z := map Z.of_nat (seq 0 (Z.to_nat n)).

Definition Qlt_bool (a b : Q) : bool := negb (Qle_bool b a).

(** [min(a, b)]: the first argument unless the second is strictly less. *)
Definition py_min (a b : Q) : Q := if Qlt_bool b a then b else a.

(** Truthiness of a float-or-None: [None] and [0.0] are falsy. *)
Definition truthy (x : option Q) : bool :=
  match x with
  | None => false
  | Some q => negb (Qeq_bool q 0)
  end.

(** Truthiness of a string and of a sequence: non-empty. *)
Definition nonempty {A : Type} (l : list A) : bool :=
  match l with [] => false | _ => true end.

(** An exception, by class name. *)
Definition exn := string.

Inductive outcome (A : Type) : Type :=
| Ok (a : A)
| Raise (e : exn).
Arguments Ok {A} a.
Arguments Raise {A} e.

(** One chunk of a transcription result: the dict
    [{"text": ..., "timestamp": (start, end)}].  [c_text] is
    [chunk.get('text', '')]; [c_timestamp] is [chunk.get('timestamp')], a
    sequence whose entries may be [None]. *)
Record chunk : Type := mkChunk {
  c_text : str;
  c_timestamp : option (list (option Q))
}.

(** A transcription result: the dict [{"text": ..., "chunks": [...]}]; either
    key may be absent. *)
Record result : Type := mkResult {
  r_text : option str;
  r_chunks : option (list chunk)
}.

(** ["chunks" in result and result["chunks"]] *)
Definition chunks_of (r : result) : list chunk :=
  match r_chunks r with Some cs => cs | None => [] end.

(** ["text" in result and result["text"]] *)
Definition text_of (r : result) : str :=
  match r_text r with Some t => t | None => [] end.

End Data.
Import Data.

(* ------------------------------------------------------------------ *)
(** ** Segment boundaries: the head of [transcribe_audio_segments_realtime] *)

Module Segments.

(** [num_segments = int(total_duration / segment_duration) + 1] *)
Definition num_segments (total_duration : Q) (segment_duration : Z) : Z :=
  py_int (total_duration / inject_Z segment_duration) + 1.

(** [start_time = i * segment_duration] *)
Definition start_time (i segment_duration : Z) : Z := i * segment_duration.

(** [end_time = min((i + 1) * segment_duration, total_duration)] *)
Definition end_time (i segment_duration : Z) (total_duration : Q) : Q :=
  py_min (inject_Z ((i + 1) * segment_duration)) total_duration.

(** The [(start_time, end_time)] pairs the loop goes through, in order. *)
Definition segment_ranges (total_duration : Q) (segment_duration : Z)
  : list (Z * Q) :=
  map (fun i => (start_time i segment_duration,
                 end_time i segment_duration total_duration))
      (range (num_segments total_duration segment_duration)).

(** [ceil(x)], for the comparison with the specification. *)
Definition spec_num_segments (total_duration : Q) (segment_duration : Z) : Z :=
  Qceiling (total_duration / inject_Z segment_duration).

(** Timestamp adjustment of one chunk (the body of
    [for chunk in segment_result["chunks"]]). *)
Definition adjust_chunk (start : Z) (end_ : Q) (c : chunk) : chunk :=
  match c_timestamp c with
  | Some (t0 :: t1 :: rest) =>
    match t0, t1 with
    | Some a, Some b =>
        mkChunk (c_text c)
                (Some [Some (a + inject_Z start); Some (b + inject_Z start)])
    | _, _ =>
        mkChunk (c_text c)
                (Some [Some (inject_Z start);
                       Some (inject_Z start + (end_ - inject_Z start))])
    end
  | _ => c
  end.

(** The chunk dicts are updated in place, so the adjusted result is the
    object that is then saved and collected. *)
Definition adjust_result (start : Z) (end_ : Q) (r : result) : result :=
  match r_chunks r with
  | Some (c :: cs) =>
      mkResult (r_text r) (Some (map (adjust_chunk start end_) (c :: cs)))
  | _ => r
  end.

End Segments.

(* ------------------------------------------------------------------ *)
(** ** The checkpoint file: creation and append *)

Module Checkpoint.

(** ["\n"] *)
Definition nl : str := [10%N].

(** Operations on an open text file object. *)
Inductive file_op : Type :=
| Write (s : str)
| Flush.

(** The text written by an operation. *)
Definition written (op : file_op) : str :=
  match op with Write s => s | Flush => [] end.

(** Every write is directly followed by a flush. *)
Inductive each_write_flushed : list file_op -> Prop :=
| ewf_nil : each_write_flushed []
| ewf_cons (s : str) (ops : list file_op) :
    each_write_flushed ops -> each_write_flushed (Write s :: Flush :: ops).

(** An open file: what has reached the file, and what is still buffered. *)
Record handle : Type := mkHandle {
  h_disk : str;
  h_buf : str
}.

Definition do_op (h : handle) (op : file_op) : handle :=
  match op with
  | Write s => mkHandle (h_disk h) (h_buf h ++ s)
  | Flush => mkHandle (h_disk h ++ h_buf h) []
  end.

Definition do_ops (h : handle) (ops : list file_op) : handle :=
  fold_left do_op ops h.

(** [open(path, "a")] on a file whose content is [content] *)
Definition open_append (content : str) : handle := mkHandle content [].

(** [open(path, "w")] *)
Definition open_write : handle := mkHandle [] [].

(** Leaving the [with] block closes the file, which flushes it. *)
Definition close (h : handle) : str := h_disk h ++ h_buf h.

(** The same open file when [content] was in the file before. *)
Definition on_top (content : str) (h : handle) : handle :=
  mkHandle (content ++ h_disk h) (h_buf h).

Section Save.

(** [f"{x:.1f}"] *)
Variable fmt1 : Q -> str.

(** [f"[{start_time:.1f}s - {end_time:.1f}s] {filtered_text}\n"] *)
Definition timed_line (a b : Q) (text : str) : str :=
  py "[" ++ fmt1 a ++ py "s - " ++ fmt1 b ++ py "s] " ++ text ++ nl.

(** [f"[時間戳未知] {filtered_text}\n"] *)
Definition unknown_line (text : str) : str :=
  py "[時間戳未知] " ++ text ++ nl.

(** What [save_result_realtime] does for one chunk. *)
Definition chunk_ops (c : chunk) : list file_op :=
  match c_timestamp c with
  | Some (t0 :: t1 :: _) =>
    let filtered_text := Filter._filter_repetitive_content (c_text c) in
    if negb (nonempty filtered_text) then []
    else if nonempty (strip filtered_text) then
      [Write (match t0, t1 with
              | Some a, Some b => timed_line a b filtered_text
              | _, _ => unknown_line filtered_text
              end);
       Flush]
    else []
  | _ => []
  end.

(** What [save_result_realtime] does for a result without chunks. *)
Definition text_ops (r : result) : list file_op :=
  if nonempty (text_of r) then
    let filtered_text := Filter._filter_repetitive_content (text_of r) in
    if nonempty (strip filtered_text)
    then [Write (filtered_text ++ nl); Flush]
    else []
  else [].

(** The writes and flushes of [save_result_realtime] when no file operation
    raises, in order. *)
Definition save_ops (r : result) : list file_op :=
  match chunks_of r with
  | _ :: _ => flat_map chunk_ops (chunks_of r)
  | [] => text_ops r
  end.

(** [f"[時間戳錯誤] {filtered_text}\n"] *)
Definition timestamp_error_line (text : str) : str :=
  py "[時間戳錯誤] " ++ text ++ nl.

(** The [except Exception] handler of one chunk. *)
Definition chunk_handler_ops (c : chunk) : list file_op :=
  let filtered_text := Filter._filter_repetitive_content (c_text c) in
  if nonempty (strip filtered_text)
  then [Write (timestamp_error_line filtered_text); Flush]
  else [].

(** The file system under the open file: whether the [k]-th operation on it
    (a write, a flush, or the closing) raises. *)
Variable io : nat -> option exn.

(** One [f.write] or [f.flush].  The open file is the handle together with
    the number of operations made on it; an operation that raises leaves the
    file and the buffer as they were. *)
Definition run_op (st : handle * nat) (op : file_op)
  : outcome unit * (handle * nat) :=
  let '(h, k) := st in
  match io k with
  | Some e => (Raise e, (h, S k))
  | None => (Ok tt, (do_op h op, S k))
  end.

(** Operations in sequence, up to the first that raises. *)
Fixpoint run_ops (st : handle * nat) (ops : list file_op)
  : outcome unit * (handle * nat) :=
  match ops with
  | [] => (Ok tt, st)
  | op :: ops' =>
    match run_op st op with
    | (Ok _, st') => run_ops st' ops'
    | (Raise e, st') => (Raise e, st')
    end
  end.

(** One pass of [for i, chunk in enumerate(result["chunks"])]: the [try]
    body, and the handler when the body raised.  An exception of the handler
    leaves the loop. *)
Definition save_chunk (st : handle * nat) (c : chunk)
  : outcome unit * (handle * nat) :=
  match run_ops st (chunk_ops c) with
  | (Ok _, st') => (Ok tt, st')
  | (Raise _, st') => run_ops st' (chunk_handler_ops c)
  end.

Fixpoint save_chunks (st : handle * nat) (cs : list chunk)
  : outcome unit * (handle * nat) :=
  match cs with
  | [] => (Ok tt, st)
  | c :: cs' =>
    match save_chunk st c with
    | (Ok _, st') => save_chunks st' cs'
    | (Raise e, st') => (Raise e, st')
    end
  end.

(** The body of the [with] block. *)
Definition save_body (st : handle * nat) (r : result)
  : outcome unit * (handle * nat) :=
  match chunks_of r with
  | _ :: _ => save_chunks st (chunks_of r)
  | [] => run_ops st (text_ops r)
  end.

(** Leaving the [with] block, normally or by an exception, closes the file.
    Closing flushes the buffer; when that raises, the buffered text is lost. *)
Definition close_file (st : handle * nat) : outcome unit * str :=
  let '(h, k) := st in
  match io k with
  | Some e => (Raise e, h_disk h)
  | None => (Ok tt, close h)
  end.

(** [save_result_realtime(result, output_file)] on a file whose content is
    [content]: the outcome and the content afterwards.  [opened] is the
    outcome of [open(output_file, "a")].  Every exception is re-raised by the
    function; an exception of the closing replaces one of the body. *)
Definition save_result_realtime (opened : outcome unit) (r : result)
    (content : str) : outcome unit * str :=
  match opened with
  | Raise e => (Raise e, content)
  | Ok _ =>
    let '(body, st) := save_body (open_append content, 0%nat) r in
    match close_file st, body with
    | (Raise e, disk), _ => (Raise e, disk)
    | (Ok _, disk), Raise e => (Raise e, disk)
    | (Ok _, disk), Ok _ => (Ok tt, disk)
    end
  end.

(** The text one call of [save_result_realtime] adds to the file. *)
Definition appended (opened : outcome unit) (r : result) : str :=
  snd (save_result_realtime opened r []).

End Save.

(** A file system on which no operation raises. *)
Definition io_ok : nat -> option exn := fun _ => None.

(** The values the header block is rendered from. *)
Record header_fields : Type := mkHeader {
  audio_path : str;
  hw_description : str;
  hw_acceleration : str;
  hw_memory_gb : Q;
  size_mb : Q;
  duration_min : Q;
  segment_duration : str;
  batch_size : str;
  torch_dtype : str;
  now : str
}.

Definition rule60 : str := Eval vm_compute in repeat 61%N 60.

Section Create.

Variable fmt1 : Q -> str.

(** The [f.write] calls of [create_segmented_transcription], in order. *)
Definition header_ops (hf : header_fields) : list file_op :=
  [ Write (py "智能語音轉錄結果 (Breeze-ASR-25)" ++ nl);
    Write (rule60 ++ nl);
    Write (py "檔案: " ++ audio_path hf ++ nl);
    Write (py "模型: MediaTek-Research/Breeze-ASR-25" ++ nl);
    Write (py "處理方法: 智能分段轉錄" ++ nl);
    Write (py "硬體配置: " ++ hw_description hf ++ nl);
    Write (py "加速方式: " ++ hw_acceleration hf ++ nl);
    Write (py "記憶體: " ++ fmt1 (hw_memory_gb hf) ++ py " GB" ++ nl);
    Write (py "檔案大小: " ++ fmt1 (size_mb hf) ++ py " MB" ++ nl);
    Write (py "音訊長度: " ++ fmt1 (duration_min hf) ++ py " 分鐘" ++ nl);
    Write (py "智能分段大小: " ++ segment_duration hf ++ py " 秒" ++ nl);
    Write (py "批次大小: " ++ batch_size hf ++ nl);
    Write (py "精度: " ++ torch_dtype hf ++ nl);
    Write (py "轉錄時間: " ++ now hf ++ nl);
    Write (rule60 ++ nl ++ nl);
    Write (py "智能分段轉錄結果:" ++ nl);
    Write (rule60 ++ nl) ].

Definition header_block (hf : header_fields) : str :=
  concat (map written (header_ops hf)).

(** A file system: path to content. *)
Definition fs := str -> option str.

Definition fs_write (files : fs) (path content : str) : fs :=
  fun p => if str_eqb p path then Some content else files p.

(** [create_segmented_transcription]: with an existing result file the path
    is returned and nothing is written; otherwise a new file is opened with
    ["w"] and receives the header.  [new_path] is
    [f"{output_dir}/result-{filename}-{timestamp}.txt"]. *)
Definition create_segmented_transcription (files : fs)
    (existing_result_path : option str) (new_path : str)
    (hf : header_fields) : str * fs :=
  match existing_result_path with
  | Some p =>
    match files p with
    | Some _ => (p, files)
    | None =>
      (new_path, fs_write files new_path
                   (close (do_ops open_write (header_ops hf))))
    end
  | None =>
    (new_path, fs_write files new_path
                 (close (do_ops open_write (header_ops hf))))
  end.

End Create.

End Checkpoint.

(* ------------------------------------------------------------------ *)
(** ** Combination of per-segment results: [combine_results] *)

Module Combine.

Definition sp : str := py " ".

(** What one result contributes to the combined text. *)
Definition piece (r : result) : str :=
  if nonempty (text_of r) then text_of r ++ sp else [].

(** The loop of [combine_results] over [(combined_text, combined_chunks)]. *)
Definition combine_step (acc : str * list chunk) (r : result)
  : str * list chunk :=
  let '(combined_text, combined_chunks) := acc in
  let combined_chunks' :=
    if nonempty (chunks_of r) then combined_chunks ++ chunks_of r
    else combined_chunks in
  let combined_text' :=
    if nonempty (text_of r) then combined_text ++ text_of r ++ sp
    else combined_text in
  (combined_text', combined_chunks').

Definition combine_results (results : list result) : result :=
  let '(combined_text, combined_chunks) :=
    fold_left combine_step results ([], []) in
  mkResult (Some (strip combined_text)) (Some combined_chunks).

End Combine.

(* ------------------------------------------------------------------ *)
(** ** The segmentation loop: [transcribe_audio_segments_realtime] *)

Module Controller.

Import Segments Checkpoint.

(** What one pass through a loop body hands to the loop: go on, or an
    exception that escaped the body. *)
Inductive signal (S : Type) : Type :=
| Next (s : S)
| Abort (e : exn) (s : S).
Arguments Next {S} s.
Arguments Abort {S} e s.

(** The state a pass, or a loop, ends in. *)
Definition state_of {S : Type} (sg : signal S) : S :=
  match sg with
  | Next s => s
  | Abort _ s => s
  end.

(** [for i in l: body]; an escaping exception ends the loop. *)
Fixpoint for_each {S : Type} (body : Z -> S -> signal S) (l : list Z) (s : S)
  : signal S :=
  match l with
  | [] => Next s
  | i :: l' =>
    match body i s with
    | Next s' => for_each body l' s'
    | Abort e s' => Abort e s'
    end
  end.

(** The state the loop threads: the checkpoint file's content, the collected
    results and the progress lines printed
    ([處理段落 i+1/n: start - end]). *)
Record state : Type := mkState {
  file : str;
  all_results : list result;
  attempts : list (Z * Z * Q)
}.

(** How the [try] block of one segment ends. *)
Inductive try_end : Type :=
| Completed (s : state)
| Continued (s : state)
| Raised (e : exn) (s : state).

Section Loop.

Variable fmt1 : Q -> str.

(** [subprocess.run(['ffmpeg', ..., '-ss', start, '-t', duration, ...])] for
    segment [i]: the return code, or an exception of [subprocess.run]. *)
Variable ffmpeg : Z -> Z -> Q -> outcome Z.

(** [self.transcribe_with_fallback(segment_file)] for segment [i]. *)
Variable transcribe_with_fallback : Z -> outcome result.

(** [open(output_file, "a")] at segment [i]. *)
Variable open_output : Z -> outcome unit.

(** The operations on the output file opened at segment [i]. *)
Variable file_io : Z -> nat -> option exn.

(** [if os.path.exists(segment_file): os.remove(segment_file)] after the
    append of segment [i]. *)
Variable remove_segment_file : Z -> outcome unit.

(** The memory check that ends the [try] block of segment [i]:
    [psutil.virtual_memory().percent], and [gc.collect()] above 90. *)
Variable memory_check : Z -> outcome unit.

(** [if os.path.exists(segment_file): os.remove(segment_file)] in the
    [except] handler of segment [i]. *)
Variable handler_cleanup : Z -> outcome unit.

Variable total_duration : Q.
Variable segment_duration : Z.

(** The [try] block of segment [i]. *)
Definition try_block (i : Z) (s : state) : try_end :=
  let start := start_time i segment_duration in
  let end_ := end_time i segment_duration total_duration in
  match ffmpeg i start (end_ - inject_Z start) with
  | Raise e => Raised e s
  | Ok returncode =>
    if negb (returncode =? 0)%Z then Continued s
    else
      match transcribe_with_fallback i with
      | Raise e => Raised e s
      | Ok segment_result =>
        let segment_result' := adjust_result start end_ segment_result in
        match save_result_realtime fmt1 (file_io i) (open_output i)
                segment_result' (file s) with
        | (Raise e, file') =>
            Raised e (mkState file' (all_results s) (attempts s))
        | (Ok _, file') =>
          match remove_segment_file i with
          | Raise e => Raised e (mkState file' (all_results s) (attempts s))
          | Ok _ =>
            let s' := mkState file' (all_results s ++ [segment_result'])
                              (attempts s) in
            match memory_check i with
            | Raise e => Raised e s'
            | Ok _ => Completed s'
            end
          end
        end
      end
  end.




(** One iteration: the progress line, then [try: ... except Exception: ...
    continue].  A [continue] inside the [try] block does not enter the
    handler; an exception of the handler's own cleanup leaves the loop. *)
Definition loop_body (i : Z) (s : state) : signal state :=
  let start := start_time i segment_duration in
  let end_ := end_time i segment_duration total_duration in
  let s1 := mkState (file s) (all_results s)
                    (attempts s ++ [(i, start, end_)]) in
  match try_block i s1 with
  | Completed s2 => Next s2
  | Continued s2 => Next s2
  | Raised _ s2 =>
    match handler_cleanup i with
    | Ok _ => Next s2
    | Raise e => Abort e s2
    end
  end.

Definition transcribe_audio_segments_realtime (content : str)
  : outcome result * state :=
  let num_segments := num_segments total_duration segment_duration in
  match for_each loop_body (range num_segments) (mkState content [] []) with
  | Next s => (Ok (Combine.combine_results (all_results s)), s)
  | Abort e s => (Raise e, s)
  end.

(** The progress line of segment [i]. *)
Definition attempt (i : Z) : Z * Z * Q :=
  (i, start_time i segment_duration,
   end_time i segment_duration total_duration).

End Loop.

End Controller.

(* ------------------------------------------------------------------ *)
(** ** An example run *)

Module LoopExample.

(** The one-decimal rendering of the times of the example. *)
Definition fmt1 (x : Q) : str :=
  if Qeq_bool x 1 then py "1.0"
  else if Qeq_bool x 2 then py "2.0"
  else if Qeq_bool x 121 then py "121.0"
  else if Qeq_bool x 122 then py "122.0"
  else py "0.0".

(** What the model returns for each segment: one chunk from 1 s to 2 s. *)
Definition segment_result : result :=
  mkResult (Some (py "hello world"))
    (Some [mkChunk (py "hello world") (Some [Some 1%Q; Some 2%Q])]).

End LoopExample.

(* ------------------------------------------------------------------ *)
(** ** The transcription adapter: [transcribe_with_fallback] *)

Module Adapter.

(** The backends the function can call. *)
Inductive backend : Type :=
| PrimaryFasterWhisper    (* self._transcribe_with_faster_whisper(audio) *)
| PrimaryPipeline         (* self.model(audio, return_timestamps=True) *)
| BackupFasterWhisper     (* WhisperModel("large-v2") and its transcription *)
| BackupWhisperBase.      (* pipeline(model="openai/whisper-base") *)

(** The test on the primary result:
    [text == '!' or text == '!!!!!!!!!' or len(text) <= 2]. *)
Definition needs_backup (text : str) : bool :=
  str_eqb text (py "!") || str_eqb text (py "!!!!!!!!!")
  || (length text <=? 2).

(** The degenerate patterns as the specification lists them, for the
    comparison with [needs_backup]: empty, a lone punctuation mark (one
    character, a punctuation mark), or at most two characters. *)
Definition spec_degenerate (is_punctuation : char -> bool) (text : str)
  : bool :=
  negb (nonempty text)
  || match text with [c] => is_punctuation c | _ => false end
  || (length text <=? 2).

Section Fallback.

Variable model_type : str.
Variable model_name : str.
Variable FASTER_WHISPER_AVAILABLE : bool.

(** Running a backend on the audio: a result, or an exception. *)
Variable run : backend -> outcome result.

(** The backend chosen by [self.model_type == "faster-whisper"]. *)
Definition primary_backend : backend :=
  if str_eqb model_type (py "faster-whisper")
  then PrimaryFasterWhisper else PrimaryPipeline.

(** [self.model_name == "Breeze-ASR-25"] *)
Definition is_breeze : bool := str_eqb model_name (py "Breeze-ASR-25").

(** [transcribe_with_fallback(audio_path)]: the backends it ran, in order,
    and its outcome. *)
Definition transcribe_with_fallback : list backend * outcome result :=
  let primary := primary_backend in
  match run primary with
  | Raise e => ([primary], Raise e)
  | Ok result0 =>
    match r_text result0 with
    | None => ([primary], Raise "KeyError"%string)
    | Some t =>
      let text := strip t in
      if needs_backup text then
        if is_breeze then
          if FASTER_WHISPER_AVAILABLE then
            match run BackupFasterWhisper with
            | Ok result1 => ([primary; BackupFasterWhisper], Ok result1)
            | Raise _ =>
              ([primary; BackupFasterWhisper; BackupWhisperBase],
               run BackupWhisperBase)
            end
          else ([primary; BackupWhisperBase], run BackupWhisperBase)
        else ([primary], Ok result0)
      else ([primary], Ok result0)
    end
  end.

End Fallback.

End Adapter.

(* ------------------------------------------------------------------ *)
(** ** Resume: [check_existing_transcription] and [resume_transcription] *)

Module Resume.

(** A [datetime], as the time elapsed since [datetime.min]; the order of
    datetimes is the order of these numbers. *)
Definition datetime := N.
Definition datetime_min : datetime := 0%N.

(** [l[-1]] of a non-empty list *)
Definition last_part (l : list str) : str := last l [].

(** [sort(key=key, reverse=True)]: stable, by descending key.  An element
    goes before the first one whose key is not greater than its own, which
    keeps elements of equal key in their original order. *)
Fixpoint insert_desc {A : Type} (key : A -> datetime) (x : A) (l : list A)
  : list A :=
  match l with
  | [] => [x]
  | y :: l' =>
    if (key y <=? key x)%N then x :: y :: l'
    else y :: insert_desc key x l'
  end.

(** Newest first. *)
Definition newer_or_equal {A : Type} (key : A -> datetime) (a b : A) : Prop :=
  (key b <= key a)%N.

Definition sort_desc {A : Type} (key : A -> datetime) (l : list A) : list A :=
  fold_right (insert_desc key) [] l.

(** The line prefixes that [check_existing_transcription] skips when it looks
    for the first sentence. *)
Definition skipped_prefixes : list str :=
  Eval vm_compute in
    map u ["="; "檔案:"; "模型:"; "處理"; "語音轉錄結果"; "分段轉錄結果";
           "分段時間戳"; "檔案大小:"; "音訊長度:"; "轉錄時間:"; "分塊大小:";
           "記憶體使用率:"; "--- 續轉結果"]%string.

Definition is_timestamp_line (line : str) : bool :=
  startswith (py "[") line && contains (py "]") line.

(** The scan for the first sentence; [None] when there is no content. *)
Fixpoint first_sentence (lines : list str) : option str :=
  match lines with
  | [] => None
  | l :: rest =>
    let line := strip l in
    if nonempty line
       && forallb (fun p => negb (startswith p line)) skipped_prefixes
       && (20 <? length line)
       && negb (is_timestamp_line line)
    then Some line
    else first_sentence rest
  end.

Section Lookup.

(** [f"{x:.1f}"] *)
Variable fmt1 : Q -> str.

(** [datetime.strptime(s, '%Y%m%d_%H%M%S')]; [None] when it raises. *)
Variable strptime : str -> option datetime.

(** The [try] body of [extract_timestamp]: [None] when the name has fewer
    than three parts or [strptime] raises. *)
Definition parse_timestamp (filename : str) : option datetime :=
  let parts := split (py "-") filename in
  if 3 <=? length parts
  then strptime (remove_all (py ".txt") (last_part parts))
  else None.

Definition extract_timestamp (filename : str) : datetime :=
  match parse_timestamp filename with
  | Some t => t
  | None => datetime_min
  end.

(** The names kept from [os.listdir(self.output_dir)]. *)
Definition is_result_file (file : str) : bool :=
  startswith (py "result-") file && endswith (py ".txt") file.

Definition candidates (listing : list str) : list str :=
  sort_desc extract_timestamp (filter is_result_file listing).

(** [os.path.join(self.output_dir, result_file)] *)
Definition path_join (output_dir file : str) : str :=
  output_dir ++ py "/" ++ file.

Definition size_line (processed_size_mb : Q) : str :=
  py "檔案大小: " ++ fmt1 processed_size_mb ++ py " MB".

Definition duration_line (processed_duration_min : Q) : str :=
  py "音訊長度: " ++ fmt1 processed_duration_min ++ py " 分鐘".

(** A file system: reading a path gives its content, or raises ([None]). *)
Variable read : str -> option str.
Variable output_dir : str.
Variable processed_size_mb processed_duration_min : Q.

(** [size_match and duration_match] on a candidate that could be read. *)
Definition matches (result_file : str) : bool :=
  match read (path_join output_dir result_file) with
  | None => false
  | Some content =>
      contains (size_line processed_size_mb) content
      && contains (duration_line processed_duration_min) content
  end.

(** The [for result_file in result_files] loop: the path and the first
    sentence (or ["無內容"]) of the first matching candidate. *)
Fixpoint scan (result_files : list str) : option (str * str) :=
  match result_files with
  | [] => None
  | result_file :: rest =>
    let result_path := path_join output_dir result_file in
    match read result_path with
    | None => scan rest
    | Some content =>
      if contains (size_line processed_size_mb) content
         && contains (duration_line processed_duration_min) content
      then
        match first_sentence (split Checkpoint.nl content) with
        | Some sentence => Some (result_path, sentence)
        | None => Some (result_path, py "無內容")
        end
      else scan rest
    end
  end.

(** What is returned for a matching candidate. *)
Definition answer (result_file : str) : str * str :=
  let result_path := path_join output_dir result_file in
  match read result_path with
  | Some content =>
    match first_sentence (split Checkpoint.nl content) with
    | Some sentence => (result_path, sentence)
    | None => (result_path, py "無內容")
    end
  | None => (result_path, py "無內容")
  end.

(** [check_existing_transcription]; [listing] is [None] when the output
    directory does not exist. *)
Definition check_existing_transcription (listing : option (list str))
  : option (str * str) :=
  match listing with
  | None => None
  | Some names => scan (candidates names)
  end.

End Lookup.

Section Progress.

(** [float(s)]; [None] when it raises. *)
Variable parse_float : str -> option Q.

(** [s[1:]] and [s[:-1]] *)
Definition drop_first (s : str) : str := tl s.
Definition drop_last (s : str) : str := removelast s.

(** The end time read from one line of the file, when the line gives one
    (the body of the [for line in reversed(lines)] loop up to [break]). *)
Definition line_end_time (l : str) : option Q :=
  let line := strip l in
  if is_timestamp_line line then
    let timestamp_part := drop_first (hd [] (split (py "]") line)) in
    if contains (py " - ") timestamp_part then
      let end_time_str := nth 1 (split (py " - ") timestamp_part) [] in
      if endswith (py "s") end_time_str
      then parse_float (drop_last end_time_str)
      else None
    else None
  else None.

Fixpoint first_end_time (lines : list str) : option Q :=
  match lines with
  | [] => None
  | l :: rest =>
    match line_end_time l with
    | Some t => Some t
    | None => first_end_time rest
    end
  end.

Definition marker : str := py "分段轉錄結果:".

(** [last_timestamp] as [resume_transcription] computes it. *)
Definition last_timestamp (existing_content : str) : option Q :=
  let transcribed_content :=
    if contains marker existing_content
    then nth 1 (split marker existing_content) []
    else existing_content in
  first_end_time (rev (split Checkpoint.nl (strip transcribed_content))).

End Progress.

(** The completeness test of [resume_transcription]:
    [last_timestamp and last_timestamp >= (total_duration - 30)]. *)
Definition is_complete (last_timestamp : option Q) (total_duration : Q)
  : bool :=
  truthy last_timestamp &&
  match last_timestamp with
  | Some t => Qle_bool (total_duration - 30) t
  | None => false
  end.

(** [resume_transcription]: the third component of its result. *)
Definition resume_transcription (parse_float : str -> option Q)
    (existing_content : str) (total_duration : Q) : bool :=
  is_complete (last_timestamp parse_float existing_content) total_duration.

End Resume.

(* ------------------------------------------------------------------ *)
(** ** An example directory *)

(** A directory with two checkpoints of the same fingerprint, a name without
    a timestamp and a file that is not a result file. *)
Module LookupExample.

Definition names : list str :=
  [py "result-source-bad.txt"; py "result-source-20250903_220356.txt";
   py "notes.txt"; py "result-source-20250904_101500.txt"].

Definition strptime (s : str) : option Resume.datetime :=
  if str_eqb s (py "20250903_220356") then Some 100%N
  else if str_eqb s (py "20250904_101500") then Some 200%N
  else None.

Definition fmt1 (x : Q) : str := py "12.3".

Definition content : str :=
  py "檔案大小: 12.3 MB" ++ Checkpoint.nl
  ++ py "音訊長度: 12.3 分鐘" ++ Checkpoint.nl.

Definition read (path : str) : option str :=
  if str_eqb path (py "out/notes.txt") then None else Some content.

End LookupExample.

(** A directory in which a name without a timestamp stands before a name
    stamped with the first instant of the calendar. *)
Module TieExample.

Definition names : list str :=
  [py "result-source-bad.txt"; py "result-source-00010101_000000.txt"].

(** [strptime] on the names of this directory: [00010101_000000] is
    [datetime.min] itself. *)
Definition strptime (s : str) : option Resume.datetime :=
  if str_eqb s (py "00010101_000000") then Some Resume.datetime_min
  else None.

End TieExample.


(* ------------------------------------------------------------------ *)
(** ** Hardware profile and run parameters: [_detect_hardware],
       [_optimize_parameters], [_load_faster_whisper_model] *)

Module Hardware.

(** [max(a, b)]: the first argument unless the second is strictly greater. *)
Definition py_max (a b : Q) : Q := if Qlt_bool a b then b else a.

Inductive dtype : Type := Float16 | Float32.

(** What [_detect_hardware] reads from the machine: [psutil], [platform]
    (strings already lower-cased) and [torch]. *)
Record probe : Type := mkProbe {
  p_total : Q;
  p_available : Q;
  p_percent : Q;
  p_machine : str;
  p_system : str;
  p_cuda_available : bool;
  p_cuda_total : Q;
  p_mps_available : bool
}.

Record hardware_info : Type := mkHardware {
  memory_gb : Q;
  available_memory_gb : Q;
  memory_percent : Q;
  is_apple_silicon : bool;
  has_cuda : bool;
  has_mps : bool;
  cuda_memory : Q;
  acceleration : str;
  device : str;
  description : str
}.

(** [1024**3] *)
Definition gib : Q := 1073741824.

Section Detect.

(** [f"{x:.1f}"] *)
Variable fmt1 : Q -> str.

Definition _detect_hardware (p : probe) : hardware_info :=
  let memory_gb := p_total p / gib in
  let available_memory_gb := p_available p / gib in
  let is_apple_silicon :=
    str_eqb (p_machine p) (py "arm64") && str_eqb (p_system p) (py "darwin") in
  let has_cuda := p_cuda_available p in
  let cuda_memory := if has_cuda then p_cuda_total p / gib else 0 in
  let has_mps := p_mps_available p in
  let '(acceleration, device) :=
    if is_apple_silicon && has_mps
    then (py "Apple Silicon (CPU 模式)", py "cpu")
    else if has_cuda
    then (py "NVIDIA CUDA (" ++ fmt1 cuda_memory ++ py "GB)", py "cuda")
    else (py "CPU", py "cpu") in
  let description :=
    if is_apple_silicon
    then py "Apple Silicon (" ++ p_machine p ++ py ")"
    else if has_cuda then py "x86_64 + NVIDIA GPU"
    else py "x86_64 CPU" in
  mkHardware memory_gb available_memory_gb (p_percent p) is_apple_silicon
             has_cuda has_mps cuda_memory acceleration device description.

End Detect.

Record optimized_params : Type := mkParams {
  segment_duration : Z;
  stride_duration : Z;
  batch_size : Z;
  torch_dtype : dtype;
  volume_boost : Q;
  chunk_length_s : Z;
  stride_length_s : Z
}.

Definition _optimize_parameters (hw : hardware_info) : optimized_params :=
  let memory_gb := available_memory_gb hw in
  let segment_duration :=
    if Qle_bool 16 memory_gb then 120%Z
    else if Qle_bool 8 memory_gb then 90%Z
    else 60%Z in
  let stride_duration := Z.min 15 (Z.max 5 (segment_duration / 20)) in
  let batch_size := if Qle_bool 16 memory_gb then 2%Z else 1%Z in
  let torch_dtype :=
    if is_apple_silicon hw && has_mps hw then Float16
    else if has_cuda hw && Qle_bool 8 memory_gb then Float16
    else Float32 in
  let volume_boost := py_min 15 (py_max 5 (5 + (memory_gb - 4) * 1)) in
  mkParams segment_duration stride_duration batch_size torch_dtype
           volume_boost 30 5.

(** The model size and compute type [_load_faster_whisper_model] picks. *)
Definition faster_whisper_choice (hw : hardware_info) : str * str :=
  if str_eqb (acceleration hw) (py "CUDA")
  then (py "large-v3", py "float16")
  else if str_eqb (acceleration hw) (py "MPS")
  then (py "large-v2", py "float16")
  else (py "medium", py "int8").

(** The gain [preprocess_audio] applies: [audio_volume] is
    [audio_info['volume']], or [None] when the analysis failed; [cap] is
    [self.optimized_params['volume_boost']]. *)
Definition preprocess_volume_boost (audio_volume : option Q) (cap : Q) : Q :=
  match audio_volume with
  | Some current_volume =>
      let target_volume := (-12)%Q in
      let volume_boost := py_max 0 (target_volume - current_volume) in
      py_min volume_boost cap
  | None => cap
  end.

(** [estimated_chunks] of [get_file_info]:
    [max(1, int(duration_minutes * 60 / segment_duration))]. *)
Definition estimated_chunks (duration_minutes : Q) (segment_duration : Z)
  : Z :=
  Z.max 1 (py_int (duration_minutes * 60 / inject_Z segment_duration)).

End Hardware.

(* ------------------------------------------------------------------ *)
(** ** What the segmentation loop adds, segment by segment *)

Module LoopSummary.

Import Segments Checkpoint.

Section Summary.

Variable fmt1 : Q -> str.
Variable ffmpeg : Z -> Z -> Q -> outcome Z.
Variable transcribe_with_fallback : Z -> outcome result.
Variable open_output : Z -> outcome unit.
Variable file_io : Z -> nat -> option exn.
Variable remove_segment_file : Z -> outcome unit.
Variable total_duration : Q.
Variable segment_duration : Z.

(** The adjusted result of segment [i], when its extraction returns 0 and
    the transcription does not raise. *)
Definition transcribed (i : Z) : option result :=
  let start := start_time i segment_duration in
  let end_ := end_time i segment_duration total_duration in
  match ffmpeg i start (end_ - inject_Z start) with
  | Ok 0%Z =>
    match transcribe_with_fallback i with
    | Ok r => Some (adjust_result start end_ r)
    | Raise _ => None
    end
  | _ => None
  end.

(** The result that segment [i] adds to [all_results]: its adjusted result,
    when neither the append nor the removal of the segment file raises. *)
Definition completed_result (i : Z) : list result :=
  match transcribed i with
  | Some r =>
    match fst (save_result_realtime fmt1 (file_io i) (open_output i) r []),
          remove_segment_file i with
    | Ok _, Ok _ => [r]
    | _, _ => []
    end
  | None => []
  end.

(** The text that the append of segment [i] leaves in the file. *)
Definition saved_text (i : Z) : str :=
  match transcribed i with
  | Some r => appended fmt1 (file_io i) (open_output i) r
  | None => []
  end.

End Summary.

End LoopSummary.

(* ------------------------------------------------------------------ *)
(** ** Naming and choosing the checkpoint: [transcribe_audio_segments],
       and what faster-whisper returns *)

Module Naming.

Import Checkpoint Resume.

(** The characters of [datetime.now().strftime("%Y%m%d_%H%M%S")]: digits and
    the underscore. *)
Definition stamp_char (c : char) : bool :=
  ((48 <=? c) && (c <=? 57) || (c =? 95))%N.

(** [f"result-{filename}-{timestamp}.txt"], the name of a new checkpoint
    inside the output directory. *)
Definition new_result_name (filename timestamp : str) : str :=
  py "result-" ++ filename ++ py "-" ++ timestamp ++ py ".txt".

(** The first line of the header block. *)
Definition title : str := py "智能語音轉錄結果 (Breeze-ASR-25)".

(** No character of [s] is [c]. *)
Definition no_char (c : char) (s : str) : bool :=
  forallb (fun x => negb (char_eqb x c)) s.


Section Choose.

Variable fmt1 : Q -> str.
Variable strptime : str -> option datetime.

(** [transcribe_audio_segments]: the lookup with the size and duration of the
    processed audio, then [create_segmented_transcription] with the file
    found, or without one.  The file system serves both the lookup and the
    creation. *)
Definition transcribe_audio_segments (files : fs) (output_dir : str)
    (listing : option (list str)) (filename timestamp : str)
    (hf : header_fields) : str * fs :=
  let new_path := path_join output_dir (new_result_name filename timestamp) in
  match check_existing_transcription fmt1 strptime files output_dir
          (size_mb hf) (duration_min hf) listing with
  | Some (result_path, _) =>
      create_segmented_transcription fmt1 files (Some result_path) new_path hf
  | None => create_segmented_transcription fmt1 files None new_path hf
  end.

End Choose.

(** One segment of a faster-whisper transcription. *)
Record fw_segment : Type := mkSegment {
  seg_text : str;
  seg_start : Q;
  seg_end : Q
}.

(** [_transcribe_with_faster_whisper]: the model is run twice, once for the
    text and once for the chunks. *)
Definition _transcribe_with_faster_whisper
    (first_pass second_pass : outcome (list fw_segment)) : outcome result :=
  match first_pass with
  | Raise e => Raise e
  | Ok segments =>
    let full_text := concat (map seg_text segments) in
    match second_pass with
    | Raise e => Raise e
    | Ok segments_with_timestamps =>
      Ok (mkResult (Some full_text)
            (Some (map (fun segment =>
                          mkChunk (seg_text segment)
                            (Some [Some (seg_start segment);
                                   Some (seg_end segment)]))
                       segments_with_timestamps)))
    end
  end.

End Naming.

(* ------------------------------------------------------------------ *)
(** ** An example checkpoint *)

(** The header block of a new checkpoint, cut at its marker line. *)
Module ReadBackExample.




End ReadBackExample.

(* ------------------------------------------------------------------ *)
(** ** The lines of a result *)

Module Lines.

(** The lines [save_result_realtime] writes for a result. *)
Definition lines_of (fmt1 : Q -> str) (r : result) : str :=
  concat (map Checkpoint.written (Checkpoint.save_ops fmt1 r)).

End Lines.
Import Lines.

(* ------------------------------------------------------------------ *)
(** ** Loading the model: [load_model] *)

Module Loader.

Section Load.

Variable FASTER_WHISPER_AVAILABLE : bool.

(** Building the Breeze-ASR-25 pipeline, [_load_faster_whisper_model] and
    [_load_standard_whisper_model]: done, or an exception. *)
Variable load_breeze load_faster_whisper load_standard : outcome unit.

(** [load_model]: the [(model_name, model_type)] it leaves in [self], or the
    exception that escapes it. *)
Definition load_model : outcome (str * str) :=
  match load_breeze with
  | Ok _ => Ok (py "Breeze-ASR-25", py "transformers")
  | Raise _ =>
    if FASTER_WHISPER_AVAILABLE then
      match load_faster_whisper with
      | Ok _ => Ok (py "faster-whisper", py "faster-whisper")
      | Raise _ =>
        match load_standard with
        | Ok _ => Ok (py "Whisper", py "transformers")
        | Raise e => Raise e
        end
      end
    else
      match load_standard with
      | Ok _ => Ok (py "Whisper", py "transformers")
      | Raise e => Raise e
      end
  end.

End Load.

End Loader.

(* ------------------------------------------------------------------ *)
(** ** Silence: [_detect_silence_segments], [_remove_silence_segments] *)

Module Silence.

Section Detect.

(** [float(s)]; [None] when it raises [ValueError]. *)
Variable parse_float : str -> option Q.

(** [float(line.split(key)[1].strip().split('|')[0].strip())] *)
Definition number_after (key line : str) : option Q :=
  let part := strip (nth 1 (split key line) []) in
  parse_float (strip (hd [] (split (py "|") part))).

(** One line of the diagnostic output, on
    [(silence_segments, current_start)]. *)
Definition silence_step (st : list (Q * Q) * option Q) (line : str)
  : list (Q * Q) * option Q :=
  let '(silence_segments, current_start) := st in
  if contains (py "silence_start:") line then
    match number_after (py "silence_start:") line with
    | Some start_time => (silence_segments, Some start_time)
    | None => st
    end
  else
    match current_start with
    | Some start =>
      if contains (py "silence_end:") line then
        match number_after (py "silence_end:") line with
        | Some end_time => (silence_segments ++ [(start, end_time)], None)
        | None => (silence_segments, None)
        end
      else st
    | None => st
    end.

(** [_detect_silence_segments]; [stderr] is the diagnostic text of ffmpeg,
    or the exception of [subprocess.run]. *)
Definition _detect_silence_segments (stderr : outcome str) : list (Q * Q) :=
  match stderr with
  | Raise _ => []
  | Ok text =>
      fst (fold_left silence_step (split Checkpoint.nl text) ([], None))
  end.

End Detect.

(** A start that waits for its end. *)
Definition pending (current_start : option Q) : nat :=
  match current_start with Some _ => 1 | None => 0 end.

(** The lines of a text that contain [key]. *)
Definition lines_with (key text : str) : list str :=
  filter (contains key) (split Checkpoint.nl text).

(** The loop over the silent spans in [_remove_silence_segments], on
    [(temp_segments, current_time)]. *)
Definition kept_step (min_gap : Q) (st : list (Q * Q) * Q) (span : Q * Q)
  : list (Q * Q) * Q :=
  let '(temp_segments, current_time) := st in
  let '(start, end_) := span in
  (if Qlt_bool (current_time + min_gap) start
   then temp_segments ++ [(current_time, start)]
   else temp_segments,
   end_).

Definition kept_segments (min_gap : Q) (silence_segments : list (Q * Q))
  : list (Q * Q) :=
  let '(temp_segments, current_time) :=
    fold_left (kept_step min_gap) silence_segments ([], 0) in
  if Qlt_bool current_time 1000000
  then temp_segments ++ [(current_time, 1000000)]
  else temp_segments.

Section Remove.

(** Making sure the temp directory exists. *)
Variable prepare : outcome unit.

(** The return code of the [silenceremove] run of ffmpeg, or the exception
    of [subprocess.run]. *)
Variable ffmpeg : outcome Z.

(** [os.path.getsize] *)
Variable getsize : str -> outcome Z.

(** [_remove_silence_segments]; [output_path] is
    [temp/{filename}_no_silence.wav]. *)
Definition _remove_silence_segments (audio_path output_path : str)
    (silence_segments : list (Q * Q)) (min_gap : Q) : str :=
  match silence_segments with
  | [] => audio_path
  | _ :: _ =>
    match prepare with
    | Raise _ => audio_path
    | Ok _ =>
      if negb (nonempty (kept_segments min_gap silence_segments))
      then audio_path
      else
        match ffmpeg with
        | Raise _ => audio_path
        | Ok returncode =>
          if (returncode =? 0)%Z then
            match getsize audio_path with
            | Raise _ => audio_path
            | Ok original_size =>
              match getsize output_path with
              | Raise _ => audio_path
              | Ok processed_size =>
                  (* processed_size / original_size *)
                  if (original_size =? 0)%Z then audio_path
                  else output_path
              end
            end
          else audio_path
        end
    end
  end.

End Remove.

End Silence.

(* ------------------------------------------------------------------ *)
(** ** Saving a whole result: [save_result] *)

Module SaveResult.

Import Checkpoint.

Definition rule50 : str := Eval vm_compute in repeat 61%N 50.

(** The values the header of [save_result] is rendered from. *)
Record fields : Type := mkFields {
  f_audio_path : str;
  f_total_time : Q;
  f_size_mb : Q;
  f_duration_min : Q;
  f_segment_duration : str;
  f_stride_duration : str;
  f_memory_percent : Q;
  f_now : str
}.

Section Save.

Variable fmt1 : Q -> str.

Definition header_ops (hf : fields) : list file_op :=
  [ Write (py "語音轉錄結果 (Breeze-ASR-25 分段版)" ++ nl);
    Write (rule50 ++ nl);
    Write (py "檔案: " ++ f_audio_path hf ++ nl);
    Write (py "模型: MediaTek-Research/Breeze-ASR-25" ++ nl);
    Write (py "處理方法: 分段轉錄" ++ nl);
    Write (py "處理時間: " ++ fmt1 (f_total_time hf) ++ py " 秒 ("
           ++ fmt1 (f_total_time hf / 60) ++ py " 分鐘)" ++ nl);
    Write (py "檔案大小: " ++ fmt1 (f_size_mb hf) ++ py " MB" ++ nl);
    Write (py "音訊長度: " ++ fmt1 (f_duration_min hf) ++ py " 分鐘" ++ nl);
    Write (py "智能分段大小: " ++ f_segment_duration hf ++ py "秒, 重疊: "
           ++ f_stride_duration hf ++ py "秒" ++ nl);
    Write (py "記憶體使用率: " ++ fmt1 (f_memory_percent hf) ++ py "%" ++ nl);
    Write (py "轉錄時間: " ++ f_now hf ++ nl);
    Write (rule50 ++ nl ++ nl);
    Write (py "分段轉錄結果:" ++ nl);
    Write (rule50 ++ nl) ].

(** The text of the continuation line, between its newlines. *)
Definition continuation_text (now : str) : str :=
  py "--- 續轉結果 (" ++ now ++ py ") ---".

(** [f"\n\n--- 續轉結果 ({now}) ---\n"] *)
Definition continuation_line (now : str) : str :=
  nl ++ nl ++ continuation_text now ++ nl.

(** [f"[時間戳錯誤] {text}\n"] *)
Definition error_line (text : str) : str :=
  py "[時間戳錯誤] " ++ text ++ nl.

(** The line written for one chunk: formatting a missing end raises, and the
    handler writes the error line instead. *)
Definition chunk_line (c : chunk) : str :=
  match c_timestamp c with
  | Some (t0 :: t1 :: _) =>
    match t0, t1 with
    | Some a, Some b => timed_line fmt1 a b (c_text c)
    | _, _ => error_line (c_text c)
    end
  | _ => unknown_line (c_text c)
  end.

Definition body_ops (r : result) : list file_op :=
  match chunks_of r with
  | _ :: _ => map (fun c => Write (chunk_line c)) (chunks_of r)
  | [] => if nonempty (text_of r) then [Write (text_of r)] else []
  end.

(** [save_result] on the output file: [existing] is its content when
    [os.path.exists(output_file)], and the result is its new content. *)
Definition save_result (existing : option str) (hf : fields) (r : result)
  : str :=
  let started :=
    match existing with
    | None => close (do_ops open_write (header_ops hf))
    | Some content =>
        close (do_ops (open_append content)
                 [Write (continuation_line (f_now hf))])
    end in
  close (do_ops (open_append started) (body_ops r)).

End Save.

End SaveResult.

(* ------------------------------------------------------------------ *)
(** ** The per-file loop: [run] *)

Module Runner.

(** The calls [run] makes for a file, as a log. *)
Inductive event : Type :=
| Checked (f : str)
| Resumed (f : str)
| Transcribed (f : str)
| Displayed (f : str).

(** The files of the [Checked] entries of a log, in order. *)
Definition checked_files (log : list event) : list str :=
  flat_map (fun ev => match ev with Checked f => [f] | _ => [] end) log.

Section Run.

(** [self.load_model()] *)
Variable load_model : outcome unit.

(** [self.check_existing_transcription(audio_file)]: whether a checkpoint
    was found. *)
Variable check_existing : str -> outcome bool.

(** The third component of [self.resume_transcription(...)]. *)
Variable resume_complete : str -> outcome bool.

(** [self.transcribe_audio(audio_file)] and [self.display_result(result)]. *)
Variable transcribe_audio : str -> outcome unit.
Variable display_result : str -> outcome unit.

(** The [try] block for one file: the calls made, and whether it ended by an
    exception. *)
Definition try_file (f : str) : list event * outcome unit :=
  match check_existing f with
  | Raise e => ([Checked f], Raise e)
  | Ok found =>
    let transcribe_and_display (before : list event) :=
      match transcribe_audio f with
      | Raise e => (before ++ [Transcribed f], Raise e)
      | Ok _ =>
          (before ++ [Transcribed f; Displayed f], display_result f)
      end in
    if found then
      match resume_complete f with
      | Raise e => ([Checked f; Resumed f], Raise e)
      | Ok true => ([Checked f; Resumed f], Ok tt)
      | Ok false => transcribe_and_display [Checked f; Resumed f]
      end
    else transcribe_and_display [Checked f]
  end.

(** One iteration: [try: ... except Exception: ... continue]. *)
Definition file_body (log : list event) (f : str) : list event :=
  log ++ fst (try_file f).

(** [run]: the log of calls, or the exception of [load_model]. *)
Definition run (audio_files : list str) : outcome (list event) :=
  match load_model with
  | Raise e => Raise e
  | Ok _ => Ok (fold_left file_body audio_files [])
  end.

End Run.

End Runner.

(* ================================================================== *)
(** * Properties *)

Open Scope nat_scope.

(* ------------------------------------------------------------------ *)
(** ** Strings *)

Section StringFacts.

Lemma str_eqb_eq (a b : str) : str_eqb a b = true <-> a = b.
Proof.
  revert b; induction a as [|x a IH]; intros [|y b]; simpl;
    try (split; [discriminate | congruence]); [tauto|].
  rewrite andb_true_iff, IH. unfold char_eqb. rewrite N.eqb_eq.
  split; [intros [-> ->]; reflexivity | intros E; inversion E; auto].
Qed.

Lemma str_eqb_refl (a : str) : str_eqb a a = true.
Proof. apply str_eqb_eq; reflexivity. Qed.

(** [lstrip] drops a prefix. *)
Lemma lstrip_suffix (s : str) : exists p, s = p ++ lstrip s.
Proof.
  induction s as [|c s [p IH]]; simpl.
  - exists []; reflexivity.
  - destruct (isspace c).
    + exists (c :: p); simpl; congruence.
    + exists []; reflexivity.
Qed.

Lemma lstrip_head (s : str) :
  match lstrip s with [] => True | c :: _ => isspace c = false end.
Proof.
  induction s as [|c s IH]; simpl; [exact I|].
  destruct (isspace c) eqn:E; [exact IH | exact E].
Qed.

(** [rstrip] drops a suffix. *)
Lemma rstrip_prefix (s : str) : exists r, s = rstrip s ++ r.
Proof.
  unfold rstrip. destruct (lstrip_suffix (rev s)) as [p E].
  exists (rev p). rewrite <- rev_app_distr, <- E, rev_involutive; reflexivity.
Qed.

Lemma rstrip_last (s : str) :
  rstrip s = [] \/ isspace (last (rstrip s) 0%N) = false.
Proof.
  unfold rstrip. pose proof (lstrip_head (rev s)) as H.
  destruct (lstrip (rev s)) as [|c l]; [left; reflexivity | right].
  simpl. rewrite last_last. exact H.
Qed.

(** A stripped text is empty, or begins and ends with a non-space. *)
Lemma strip_ends (t : str) :
  strip t = [] \/
  (isspace (hd 0%N (strip t)) = false /\
   isspace (last (strip t) 0%N) = false).
Proof.
  unfold strip. destruct (rstrip_last (lstrip t)) as [E|L]; [left; exact E|].
  destruct (rstrip (lstrip t)) as [|c l] eqn:E; [left; reflexivity | right].
  split; [|exact L].
  destruct (rstrip_prefix (lstrip t)) as [r Er]. rewrite E in Er.
  pose proof (lstrip_head t) as H. rewrite Er in H. exact H.
Qed.

Lemma split_ws_go_nonempty (cur s : str) :
  cur <> [] -> split_ws_go cur s <> [].
Proof.
  revert cur; induction s as [|c s IH]; intros cur Hc; simpl.
  - destruct cur; [congruence | discriminate].
  - destruct (isspace c).
    + destruct cur; [congruence | discriminate].
    + apply IH; discriminate.
Qed.

Lemma split_ws_go_nil (s : str) :
  split_ws_go [] s = [] -> forallb isspace s = true.
Proof.
  induction s as [|c s IH]; simpl; [reflexivity|].
  destruct (isspace c); simpl; [exact IH|].
  intros H. exfalso. revert H. apply split_ws_go_nonempty. discriminate.
Qed.

Lemma forallb_space_last (s : str) (c : char) :
  isspace c = true -> forallb isspace s = true ->
  isspace (last (c :: s) 0%N) = true.
Proof.
  revert c; induction s as [|d s IH]; intros c Hc Hs; [exact Hc|].
  simpl in Hs. apply andb_true_iff in Hs as [Hd Hs].
  change (last (c :: d :: s) 0%N) with (last (d :: s) 0%N). auto.
Qed.

(** A text without outer whitespace that splits into one word is that
    word. *)
Lemma split_ws_go_single (s cur w : str) :
  split_ws_go cur s = [w] ->
  s = [] \/ isspace (last s 0%N) = false ->
  cur <> [] \/ s = [] \/ isspace (hd 0%N s) = false ->
  w = rev cur ++ s.
Proof.
  revert cur; induction s as [|c s IH]; intros cur H HL HH; simpl in H.
  - destruct cur; [discriminate|]. rewrite app_nil_r. congruence.
  - destruct (isspace c) eqn:Ec.
    + exfalso. destruct cur as [|x cur].
      * destruct HH as [HH|[HH|HH]]; [congruence | discriminate |].
        simpl in HH. congruence.
      * inversion H as [[Hw Hs]]. apply split_ws_go_nil in Hs.
        destruct HL as [HL|HL]; [discriminate|].
        rewrite (@forallb_space_last s c Ec Hs) in HL. discriminate.
    + rewrite (IH (c :: cur) H).
      * simpl. rewrite <- app_assoc. reflexivity.
      * destruct s; [left; reflexivity | right].
        destruct HL as [HL|HL]; [discriminate | exact HL].
      * left; discriminate.
Qed.

Lemma split_ws_strip_single (t w : str) :
  split_ws (strip t) = [w] -> w = strip t.
Proof.
  intros H. unfold split_ws in H.
  apply split_ws_go_single in H; [exact H | |];
    destruct (strip_ends t) as [E|[Hh Hl]]; auto.
Qed.

End StringFacts.

(* ------------------------------------------------------------------ *)
(** ** Content filter *)

Section FilterFacts.

Import Filter.

(** The guard on short texts comes first: whatever the rules say, a text whose
    stripped length is below three is returned as it is. *)
Lemma filter_short (t : str) :
  length (strip t) < 3 -> _filter_repetitive_content t = t.
Proof.
  intros H. unfold _filter_repetitive_content.
  destruct t; [reflexivity|].
  apply Nat.ltb_lt in H. rewrite H. reflexivity.
Qed.

(** Rule 1 never applies behind the guard: a single word of one character
    makes a stripped text of one character. *)
Lemma rule1_unreachable (t : str) :
  3 <= length (strip t) -> rule1 (split_ws (strip t)) = false.
Proof.
  intros H. unfold rule1.
  destruct (split_ws (strip t)) as [|w [|w2 ws]] eqn:E; try reflexivity.
  apply split_ws_strip_single in E. subst w.
  destruct (Nat.eqb_spec (length (strip t)) 1) as [E1|]; [lia | reflexivity].
Qed.

(** Every text that consists of one filler token is returned unchanged. *)
Lemma filter_single_filler (t w : str) :
  split_ws (strip t) = [w] -> length w = 1 -> In w fillers ->
  _filter_repetitive_content t = t.
Proof.
  intros E L _. apply filter_short.
  apply split_ws_strip_single in E. subst w. lia.
Qed.

(** The filter as a decision: which texts come back empty. *)
Lemma filter_cases (t : str) :
  _filter_repetitive_content t =
    if (3 <=? length (strip t))
       && (rule2 (split_ws (strip t)) || rule3 t)
    then [] else t.
Proof.
  unfold _filter_repetitive_content.
  destruct t as [|c t]; [reflexivity|].
  destruct (Nat.ltb_spec (length (strip (c :: t))) 3) as [H|H].
  - destruct (Nat.leb_spec 3 (length (strip (c :: t)))); [lia | reflexivity].
  - destruct (Nat.leb_spec 3 (length (strip (c :: t)))); [|lia].
    rewrite (@rule1_unreachable _ H). simpl.
    destruct (rule2 _); [reflexivity|]. simpl.
    destruct (rule3 _); reflexivity.
Qed.

(** C10: for every text the filter returns the empty string or the text
    itself, so it is idempotent; a text whose stripped length is below three
    is returned unchanged. *)
Theorem filter_empty_or_same (t : str) :
  (_filter_repetitive_content t = [] \/ _filter_repetitive_content t = t)
  /\ _filter_repetitive_content (_filter_repetitive_content t)
     = _filter_repetitive_content t
  /\ (length (strip t) < 3 -> _filter_repetitive_content t = t).
Proof.
  assert (D : _filter_repetitive_content t = []
              \/ _filter_repetitive_content t = t).
  { rewrite filter_cases. destruct (_ && _); auto. }
  split; [exact D|]. split; [|apply filter_short].
  destruct D as [E|E]; rewrite E; [reflexivity | exact E].
Qed.

Lemma filter_empty_or_same_witness :
  length (strip (py "  ab ")) < 3
  /\ _filter_repetitive_content (py "  ab ") = py "  ab ".
Proof.
  split; [vm_compute; lia|].
  apply (proj2 (proj2 (filter_empty_or_same (py "  ab ")))).
  vm_compute; lia.
Defined.

(** C5: the single filler token ["好"] is on the denylist of rule 1, and the
    filter returns it unchanged instead of the empty string; the rules on
    repeated words and on runs of four do return the empty string. *)
Theorem filter_keeps_single_filler :
  split_ws (strip (py "好")) = [py "好"]
  /\ length (py "好") = 1
  /\ In (py "好") fillers
  /\ _filter_repetitive_content (py "好") = py "好"
  /\ _filter_repetitive_content (py "好") <> []
  /\ _filter_repetitive_content (py "好 好") = []
  /\ _filter_repetitive_content (py "啊啊啊啊啊啊") = [].
Proof.
  repeat split; try reflexivity.
  - left; reflexivity.
  - discriminate.
Qed.

End FilterFacts.

(* ------------------------------------------------------------------ *)
(** ** Segment boundaries *)

Section SegmentFacts.

Import Segments.

Variable total : Q.
Variable seg : Z.
Hypothesis total_nonneg : (0 <= total)%Q.
Hypothesis seg_pos : (0 < seg)%Z.

Lemma seg_posQ : (0 < inject_Z seg)%Q.
Proof.
  change (inject_Z 0 < inject_Z seg)%Q.
  rewrite <- (Zlt_Qlt 0 seg). exact seg_pos.
Qed.

Lemma quotient_nonneg : (0 <= total / inject_Z seg)%Q.
Proof.
  apply Qle_shift_div_l; [exact seg_posQ|].
  rewrite Qmult_0_l. exact total_nonneg.
Qed.

Lemma py_int_floor (x : Q) : (0 <= x)%Q -> py_int x = Qfloor x.
Proof.
  destruct x as [n d]. unfold py_int, Qfloor, Qle. simpl.
  intros H. apply Z.quot_div_nonneg; lia.
Qed.

(** The loop count is the floor of the quotient plus one. *)
Lemma num_segments_floor :
  num_segments total seg = (Qfloor (total / inject_Z seg) + 1)%Z.
Proof.
  unfold num_segments. rewrite py_int_floor; [reflexivity|].
  apply quotient_nonneg.
Qed.

Lemma num_segments_pos : (1 <= num_segments total seg)%Z.
Proof.
  rewrite num_segments_floor.
  pose proof (Qfloor_resp_le _ _ quotient_nonneg) as H.
  change (Qfloor 0) with 0%Z in H. lia.
Qed.

Lemma seg_nonzero : ~ (inject_Z seg == 0)%Q.
Proof.
  intros E. pose proof seg_posQ as P. rewrite E in P.
  exact (Qlt_irrefl _ P).
Qed.

Lemma quotient_times_seg :
  (total / inject_Z seg * inject_Z seg == total)%Q.
Proof. rewrite Qmult_comm. apply Qmult_div_r, seg_nonzero. Qed.

Lemma below_quotient (k : Z) :
  (inject_Z k <= total / inject_Z seg)%Q ->
  (inject_Z (k * seg) <= total)%Q.
Proof.
  intros H. rewrite inject_Z_mult.
  apply (Qmult_le_compat_r _ _ (inject_Z seg)) in H;
    [|apply Qlt_le_weak, seg_posQ].
  apply Qle_trans with (1 := H).
  rewrite quotient_times_seg. apply Qle_refl.
Qed.

Lemma above_quotient (k : Z) :
  (total / inject_Z seg < inject_Z k)%Q ->
  (total < inject_Z (k * seg))%Q.
Proof.
  intros H. rewrite inject_Z_mult.
  apply (Qmult_lt_r _ _ (inject_Z seg) seg_posQ) in H.
  apply Qle_lt_trans with (2 := H).
  rewrite quotient_times_seg. apply Qle_refl.
Qed.

(** Every segment but the last ends where the next one starts. *)
Lemma end_time_inner (i : Z) :
  (0 <= i)%Z -> (i + 1 < num_segments total seg)%Z ->
  end_time i seg total = inject_Z (start_time (i + 1) seg).
Proof.
  intros Hi Hn. unfold end_time, start_time, py_min, Qlt_bool.
  rewrite num_segments_floor in Hn.
  assert (L : (inject_Z ((i + 1) * seg) <= total)%Q).
  { apply below_quotient.
    apply Qle_trans with (2 := Qfloor_le _).
    rewrite <- Zle_Qle. lia. }
  apply Qle_bool_iff in L. rewrite L. reflexivity.
Qed.

(** The last segment ends at the total duration. *)
Lemma end_time_last :
  end_time (num_segments total seg - 1) seg total = total.
Proof.
  unfold end_time, py_min, Qlt_bool.
  replace (num_segments total seg - 1 + 1)%Z with (num_segments total seg)
    by lia.
  rewrite num_segments_floor.
  pose proof (@above_quotient _ (Qlt_floor (total / inject_Z seg))) as L.
  destruct (Qle_bool _ total) eqn:E; [|reflexivity].
  apply Qle_bool_iff in E. exfalso.
  exact (Qlt_irrefl _ (Qlt_le_trans _ _ _ L E)).
Qed.

(** The loop count is the ceiling, or one more. *)
Lemma num_segments_vs_ceiling :
  (spec_num_segments total seg <= num_segments total seg
   <= spec_num_segments total seg + 1)%Z.
Proof.
  rewrite num_segments_floor. unfold spec_num_segments.
  set (x := (total / inject_Z seg)%Q).
  pose proof (Qle_floor_ceiling x) as H1.
  pose proof (Qlt_le_trans _ _ _ (Qceiling_lt x) (Qle_refl x)) as H2.
  pose proof (Qlt_floor x) as H3.
  pose proof (Qlt_trans _ _ _ H2 H3) as H4.
  rewrite <- Zlt_Qlt in H4. rewrite <- Zle_Qle in H1. lia.
Qed.

(** When the segment length divides the total duration the loop makes one
    attempt more than the ceiling, and the last one is empty. *)
Lemma exact_multiple (k : Z) :
  (0 <= k)%Z -> (total == inject_Z (k * seg))%Q ->
  num_segments total seg = (k + 1)%Z
  /\ spec_num_segments total seg = k
  /\ (inject_Z (start_time k seg) == end_time k seg total)%Q.
Proof.
  intros Hk E.
  assert (X : (total / inject_Z seg == inject_Z k)%Q).
  { rewrite E, inject_Z_mult. unfold Qdiv.
    rewrite <- Qmult_assoc, Qmult_inv_r, Qmult_1_r;
      [reflexivity | apply seg_nonzero]. }
  assert (N : num_segments total seg = (k + 1)%Z).
  { rewrite num_segments_floor, X, Qfloor_Z. reflexivity. }
  split; [exact N|]. split.
  - unfold spec_num_segments. rewrite X. apply Qceiling_Z.
  - replace k with (num_segments total seg - 1)%Z at 2 by lia.
    rewrite end_time_last. unfold start_time. symmetry. exact E.
Qed.

End SegmentFacts.

(** C1: with a total duration of 120 s and segments of 60 s the loop goes
    through three ranges, the third of them empty, where the ceiling of the
    quotient is 2; with a total duration of 0 s it makes one attempt where
    the ceiling is 0. *)
Theorem segmentation_extra_attempt :
  Segments.segment_ranges 120 60
    = [(0%Z, 60%Q); (60%Z, 120%Q); (120%Z, 120%Q)]
  /\ Segments.num_segments 120 60 = 3%Z
  /\ Segments.spec_num_segments 120 60 = 2%Z
  /\ Segments.segment_ranges 0 60 = [(0%Z, 0%Q)]
  /\ Segments.spec_num_segments 0 60 = 0%Z
  /\ Segments.segment_ranges 130 60
    = [(0%Z, 60%Q); (60%Z, 120%Q); (120%Z, 130%Q)]
  /\ Segments.spec_num_segments 130 60 = 3%Z.
Proof. repeat split; reflexivity. Qed.

(* ------------------------------------------------------------------ *)
(** ** Timestamp globalisation *)

Section TimestampFacts.

Import Segments Checkpoint Filter.

Variable fmt1 : Q -> str.

Lemma filter_survivor (t : str) :
  nonempty (strip (_filter_repetitive_content t)) = true ->
  _filter_repetitive_content t = t.
Proof.
  rewrite filter_cases. destruct (_ && _); [discriminate | reflexivity].
Qed.

(** What [save_result_realtime] writes for a chunk that has both ends. *)
Lemma chunk_ops_timed (c : chunk) (x y : Q) (rest : list (option Q)) :
  c_timestamp c = Some (Some x :: Some y :: rest) ->
  nonempty (strip (_filter_repetitive_content (c_text c))) = true ->
  chunk_ops fmt1 c = [Write (timed_line fmt1 x y (c_text c)); Flush].
Proof.
  intros E H. unfold chunk_ops. rewrite E.
  pose proof (@filter_survivor _ H) as F. rewrite F in H |- *. rewrite H.
  destruct (c_text c); [discriminate | reflexivity].
Qed.


(** C4 (amended): a chunk with a timestamp pair whose ends are both present
    is stored shifted by the start of the slice; a pair with a missing end
    is replaced by the bounds of the slice; a chunk without a pair (no
    timestamp, or fewer than two entries) is left as it is and nothing is
    written for it; the text is never changed, and for a shifted chunk whose
    text passes the filter the line written carries the shifted times. *)
Theorem timestamps_globalized (S : Z) (E : Q) (c : chunk) :
  c_text (adjust_chunk S E c) = c_text c
  /\ (forall a b rest,
        c_timestamp c = Some (Some a :: Some b :: rest) ->
        c_timestamp (adjust_chunk S E c)
          = Some [Some (a + inject_Z S)%Q; Some (b + inject_Z S)%Q]
        /\ (nonempty (strip (_filter_repetitive_content (c_text c))) = true ->
            chunk_ops fmt1 (adjust_chunk S E c)
              = [Write (timed_line fmt1 (a + inject_Z S) (b + inject_Z S)
                          (c_text c)); Flush]))
  /\ (forall t0 t1 rest,
        c_timestamp c = Some (t0 :: t1 :: rest) ->
        t0 = None \/ t1 = None ->
        exists e, c_timestamp (adjust_chunk S E c)
                    = Some [Some (inject_Z S); Some e]
                  /\ (e == E)%Q)
  /\ (c_timestamp c = None \/ c_timestamp c = Some []
      \/ (exists t, c_timestamp c = Some [t]) ->
      adjust_chunk S E c = c /\ chunk_ops fmt1 (adjust_chunk S E c) = []).
Proof.
  split; [|split; [|split]].
  - unfold adjust_chunk.
    destruct (c_timestamp c) as [[|[a|] [|[b|] rest]]|]; reflexivity.
  - intros a b rest H.
    assert (T : c_timestamp (adjust_chunk S E c)
                = Some [Some (a + inject_Z S)%Q; Some (b + inject_Z S)%Q]).
    { unfold adjust_chunk. rewrite H. reflexivity. }
    split; [exact T|]. intros F.
    assert (X : c_text (adjust_chunk S E c) = c_text c).
    { unfold adjust_chunk. rewrite H. reflexivity. }
    rewrite <- X in F |- *. exact (@chunk_ops_timed _ _ _ _ T F).
  - intros t0 t1 rest H M.
    exists (inject_Z S + (E - inject_Z S))%Q. split; [|ring].
    unfold adjust_chunk. rewrite H.
    destruct t0, t1; try reflexivity.
    destruct M; discriminate.
  - intros H. unfold adjust_chunk, chunk_ops.
    destruct H as [H|[H|[t H]]]; rewrite H; simpl; rewrite ?H; auto.
Qed.

End TimestampFacts.

Lemma timestamps_globalized_witness :
  c_timestamp (Segments.adjust_chunk 60 120
                 (mkChunk (py "hello world") (Some [Some 1.5%Q; Some 4%Q])))
    = Some [Some (1.5 + inject_Z 60)%Q; Some (4 + inject_Z 60)%Q]
  /\ (exists e,
        c_timestamp (Segments.adjust_chunk 60 120
                       (mkChunk (py "hello world") (Some [Some 1.5%Q; None])))
          = Some [Some (inject_Z 60); Some e] /\ (e == 120)%Q)
  /\ Segments.adjust_chunk 60 120 (mkChunk (py "hello world") (Some [None]))
     = mkChunk (py "hello world") (Some [None]).
Proof.
  split; [|split].
  - apply (proj1 (proj2 (timestamps_globalized (fun _ => [])
             60 120 (mkChunk (py "hello world") (Some [Some 1.5%Q; Some 4%Q]))))
             1.5%Q 4%Q []).
    reflexivity.
  - apply (proj1 (proj2 (proj2 (timestamps_globalized (fun _ => [])
             60 120 (mkChunk (py "hello world") (Some [Some 1.5%Q; None])))))
             (Some 1.5%Q) None []); [reflexivity | right; reflexivity].
  - apply (proj2 (proj2 (proj2 (timestamps_globalized (fun _ => [])
             60 120 (mkChunk (py "hello world") (Some [None])))))).
    right; right. exists None. reflexivity.
Defined.

(** C4, as stated, fails for a chunk without a timestamp pair: the bounds of
    the slice are not substituted, and the chunk is not written. *)
Lemma chunk_without_timestamp_not_substituted :
  Segments.adjust_chunk 60 120 (mkChunk (py "hello world") None)
    = mkChunk (py "hello world") None
  /\ Checkpoint.chunk_ops (fun _ => [])
       (Segments.adjust_chunk 60 120 (mkChunk (py "hello world") None)) = []
  /\ ~ (forall (S : Z) (E : Q) (c : chunk),
          (forall a b rest,
             c_timestamp c <> Some (Some a :: Some b :: rest)) ->
          exists s e,
            c_timestamp (Segments.adjust_chunk S E c)
              = Some [Some s; Some e]
            /\ (s == inject_Z S)%Q /\ (e == E)%Q).
Proof.
  split; [reflexivity|]. split; [reflexivity|].
  intros H.
  destruct (H 60%Z 120%Q (mkChunk (py "hello world") None))
    as (s & e & X & _); [discriminate | discriminate].
Qed.

(* ------------------------------------------------------------------ *)
(** ** The checkpoint file is append-only *)

Section CheckpointFacts.

Import Segments Checkpoint Controller.

Variable fmt1 : Q -> str.

Lemma each_write_flushed_app (a b : list file_op) :
  each_write_flushed a -> each_write_flushed b -> each_write_flushed (a ++ b).
Proof. induction 1; simpl; [auto | intros; constructor; auto]. Qed.

Lemma chunk_ops_flushed (c : chunk) : each_write_flushed (chunk_ops fmt1 c).
Proof.
  unfold chunk_ops.
  destruct (c_timestamp c) as [[|t0 [|t1 rest]]|]; try constructor.
  destruct (negb _); [constructor|].
  destruct (nonempty (strip _)); repeat constructor.
Qed.

Lemma save_ops_flushed (r : result) : each_write_flushed (save_ops fmt1 r).
Proof.
  unfold save_ops, text_ops. destruct (chunks_of r) as [|c cs].
  - destruct (nonempty (text_of r)); [|constructor].
    destruct (nonempty (strip _)); repeat constructor.
  - induction (c :: cs) as [|d ds IH]; simpl; [constructor|].
    apply each_write_flushed_app; [apply chunk_ops_flushed | exact IH].
Qed.

(** With every write flushed, nothing stays in the buffer. *)
Lemma do_ops_flushed (ops : list file_op) (disk : str) :
  each_write_flushed ops ->
  do_ops (mkHandle disk []) ops
    = mkHandle (disk ++ concat (map written ops)) [].
Proof.
  intros H; revert disk; induction H as [|s ops H IH]; intros disk; simpl.
  - rewrite app_nil_r; reflexivity.
  - unfold do_ops in *. simpl. rewrite IH, <- app_assoc. reflexivity.
Qed.

(** Whatever the operations, the content at opening time stays in front. *)
Lemma close_do_ops (ops : list file_op) (h : handle) :
  close (do_ops h ops) = h_disk h ++ h_buf h ++ concat (map written ops).
Proof.
  revert h; induction ops as [|op ops IH]; intros h.
  - unfold close; simpl. rewrite app_nil_r; reflexivity.
  - unfold do_ops in *. simpl fold_left. rewrite IH.
    destruct op; simpl; rewrite <- ?app_assoc, ?app_nil_r; reflexivity.
Qed.

Variable io : nat -> option exn.

(** Content that was in the file before it was opened stays in front,
    whatever the operations do. *)
Lemma run_op_on_top (c : str) (h h' : handle) (k k' : nat) (op : file_op)
    (o : outcome unit) :
  run_op io (h, k) op = (o, (h', k')) ->
  run_op io (on_top c h, k) op = (o, (on_top c h', k')).
Proof.
  unfold run_op. destruct (io k); intros X; inversion X; subst;
    [reflexivity|].
  destruct op; unfold on_top; simpl; rewrite ?app_assoc; reflexivity.
Qed.

Lemma run_ops_on_top (c : str) (ops : list file_op) :
  forall h h' k k' o,
    run_ops io (h, k) ops = (o, (h', k')) ->
    run_ops io (on_top c h, k) ops = (o, (on_top c h', k')).
Proof.
  induction ops as [|op ops IH]; intros h h' k k' o; cbn [run_ops].
  - intros X; inversion X; subst; reflexivity.
  - destruct (run_op io (h, k) op) as [[u0|e] [h1 k1]] eqn:E;
      rewrite (@run_op_on_top c _ _ _ _ _ _ E).
    + apply IH.
    + intros X; inversion X; subst; reflexivity.
Qed.

Lemma save_chunk_on_top (c : str) (x : chunk) (h h' : handle) (k k' : nat)
    (o : outcome unit) :
  save_chunk fmt1 io (h, k) x = (o, (h', k')) ->
  save_chunk fmt1 io (on_top c h, k) x = (o, (on_top c h', k')).
Proof.
  unfold save_chunk.
  destruct (run_ops io (h, k) (chunk_ops fmt1 x)) as [[u0|e] [h1 k1]] eqn:E;
    rewrite (@run_ops_on_top c _ _ _ _ _ _ E).
  - intros X; inversion X; subst; reflexivity.
  - apply run_ops_on_top.
Qed.

Lemma save_chunks_on_top (c : str) (cs : list chunk) :
  forall h h' k k' o,
    save_chunks fmt1 io (h, k) cs = (o, (h', k')) ->
    save_chunks fmt1 io (on_top c h, k) cs = (o, (on_top c h', k')).
Proof.
  induction cs as [|x cs IH]; intros h h' k k' o; cbn [save_chunks].
  - intros X; inversion X; subst; reflexivity.
  - destruct (save_chunk fmt1 io (h, k) x) as [[u0|e] [h1 k1]] eqn:E;
      rewrite (@save_chunk_on_top c _ _ _ _ _ _ E).
    + apply IH.
    + intros X; inversion X; subst; reflexivity.
Qed.

Lemma save_body_on_top (c : str) (r : result) (h h' : handle) (k k' : nat)
    (o : outcome unit) :
  save_body fmt1 io (h, k) r = (o, (h', k')) ->
  save_body fmt1 io (on_top c h, k) r = (o, (on_top c h', k')).
Proof.
  unfold save_body. destruct (chunks_of r).
  - apply run_ops_on_top.
  - apply save_chunks_on_top.
Qed.

Lemma close_file_on_top (c : str) (h : handle) (k : nat) (o : outcome unit)
    (d : str) :
  close_file io (h, k) = (o, d) ->
  close_file io (on_top c h, k) = (o, c ++ d).
Proof.
  unfold close_file. destruct (io k); intros X; inversion X; subst;
    [reflexivity|].
  unfold close, on_top; simpl. rewrite app_assoc. reflexivity.
Qed.

(** The outcome of an append does not depend on the content of the file, and
    the content is extended by the text the append adds. *)
Lemma save_result_realtime_content (opened : outcome unit) (r : result)
    (content : str) :
  save_result_realtime fmt1 io opened r content
  = (fst (save_result_realtime fmt1 io opened r []),
     content ++ appended fmt1 io opened r).
Proof.
  unfold appended, save_result_realtime. destruct opened as [u0|e].
  - replace (open_append content) with (on_top content (open_append []))
      by (unfold on_top, open_append; simpl; rewrite app_nil_r; reflexivity).
    destruct (save_body fmt1 io (open_append [], 0%nat) r) as [o [h k]] eqn:B.
    rewrite (@save_body_on_top content _ _ _ _ _ _ B).
    destruct (close_file io (h, k)) as [oc d] eqn:C.
    rewrite (@close_file_on_top content _ _ _ _ C).
    destruct oc, o; reflexivity.
  - simpl. rewrite app_nil_r. reflexivity.
Qed.

Lemma save_appends (opened : outcome unit) (r : result) (content : str) :
  snd (save_result_realtime fmt1 io opened r content)
    = content ++ appended fmt1 io opened r.
Proof. rewrite save_result_realtime_content. reflexivity. Qed.

(** When no operation raises, the operations are those of [save_ops]. *)
Lemma run_ops_ok (ops : list file_op) :
  (forall k, io k = None) ->
  forall h k,
    run_ops io (h, k) ops = (Ok tt, (do_ops h ops, k + length ops)).
Proof.
  intros H. induction ops as [|op ops IH]; intros h k; cbn [run_ops].
  - rewrite Nat.add_0_r. reflexivity.
  - unfold run_op. rewrite H, IH. cbn [length do_ops fold_left].
    rewrite Nat.add_succ_r. reflexivity.
Qed.

Lemma save_chunks_ok (cs : list chunk) :
  (forall k, io k = None) ->
  forall h k,
    save_chunks fmt1 io (h, k) cs
    = (Ok tt, (do_ops h (flat_map (chunk_ops fmt1) cs),
               k + length (flat_map (chunk_ops fmt1) cs))).
Proof.
  intros H. induction cs as [|x cs IH]; intros h k;
    cbn [save_chunks flat_map].
  - rewrite Nat.add_0_r. reflexivity.
  - unfold save_chunk. rewrite (run_ops_ok _ H), IH.
    unfold do_ops. rewrite fold_left_app, length_app, Nat.add_assoc.
    reflexivity.
Qed.

Lemma save_result_realtime_ok (u0 : unit) (r : result) (content : str) :
  (forall k, io k = None) ->
  save_result_realtime fmt1 io (Ok u0) r content
  = (Ok tt, content ++ concat (map written (save_ops fmt1 r))).
Proof.
  intros H. unfold save_result_realtime, save_body.
  assert (B : (match chunks_of r with
               | [] => run_ops io (open_append content, 0) (text_ops r)
               | _ :: _ =>
                   save_chunks fmt1 io (open_append content, 0) (chunks_of r)
               end)
              = (Ok tt, (do_ops (open_append content) (save_ops fmt1 r),
                         length (save_ops fmt1 r)))).
  { unfold save_ops. destruct (chunks_of r) as [|x cs].
    - rewrite (run_ops_ok _ H). reflexivity.
    - rewrite (save_chunks_ok _ H). reflexivity. }
  rewrite B. unfold close_file. rewrite H, close_do_ops. reflexivity.
Qed.

Lemma appended_ok (u0 : unit) (r : result) :
  (forall k, io k = None) ->
  appended fmt1 io (Ok u0) r = lines_of fmt1 r.
Proof.
  intros H. unfold appended. rewrite (save_result_realtime_ok _ _ _ H).
  reflexivity.
Qed.

End CheckpointFacts.

(* ------------------------------------------------------------------ *)
(** ** One pass of the segmentation loop *)

Section PassFacts.

Import Segments Checkpoint Controller LoopSummary.

Variable fmt1 : Q -> str.
Variable ffmpeg : Z -> Z -> Q -> outcome Z.
Variable transcribe_with_fallback : Z -> outcome result.
Variable open_output : Z -> outcome unit.
Variable file_io : Z -> nat -> option exn.
Variable remove_segment_file : Z -> outcome unit.
Variable memory_check : Z -> outcome unit.
Variable handler_cleanup : Z -> outcome unit.
Variable total_duration : Q.
Variable segment_duration : Z.

Lemma state_eta (s : state) :
  s = mkState (file s ++ []) (all_results s ++ []) (attempts s).
Proof. destruct s; simpl. rewrite !app_nil_r. reflexivity. Qed.

(** However the [try] block of segment [i] ends, the file has grown by what
    the append left there and the results by what was collected. *)
Lemma try_block_end (i : Z) (s : state) :
  let s' :=
    mkState
      (file s
       ++ saved_text fmt1 ffmpeg transcribe_with_fallback open_output file_io
            total_duration segment_duration i)
      (all_results s
       ++ completed_result fmt1 ffmpeg transcribe_with_fallback open_output
            file_io remove_segment_file total_duration segment_duration i)
      (attempts s) in
  try_block fmt1 ffmpeg transcribe_with_fallback open_output file_io
    remove_segment_file memory_check total_duration segment_duration i s
  = Completed s'
  \/ try_block fmt1 ffmpeg transcribe_with_fallback open_output file_io
       remove_segment_file memory_check total_duration segment_duration i s
     = Continued s'
  \/ exists e,
       try_block fmt1 ffmpeg transcribe_with_fallback open_output file_io
         remove_segment_file memory_check total_duration segment_duration i s
       = Raised e s'.
Proof.
  cbn zeta. unfold try_block, saved_text, completed_result, transcribed.
  cbn zeta.
  destruct (ffmpeg _ _ _) as [[|rc|rc]|e]; cbn [Z.eqb negb];
    try (right; left; rewrite <- state_eta; reflexivity);
    try (right; right; exists e; rewrite <- state_eta; reflexivity).
  destruct (transcribe_with_fallback i) as [r|e];
    [|right; right; exists e; rewrite <- state_eta; reflexivity].
  rewrite save_result_realtime_content.
  destruct (fst (save_result_realtime _ _ _ _ _)) as [u0|e].
  - destruct (remove_segment_file i) as [u1|e].
    + destruct (memory_check i) as [u2|e].
      * left. reflexivity.
      * right; right. exists e. reflexivity.
    + right; right. exists e. cbn [file all_results attempts].
      rewrite app_nil_r. reflexivity.
  - right; right. exists e. cbn [file all_results attempts].
    rewrite app_nil_r. reflexivity.
Qed.

(** One pass either hands control to the next index, or ends the loop with
    the exception of the handler's cleanup. *)
Lemma loop_body_state (i : Z) (s : state) :
  let s' :=
    mkState
      (file s
       ++ saved_text fmt1 ffmpeg transcribe_with_fallback open_output file_io
            total_duration segment_duration i)
      (all_results s
       ++ completed_result fmt1 ffmpeg transcribe_with_fallback open_output
            file_io remove_segment_file total_duration segment_duration i)
      (attempts s ++ [attempt total_duration segment_duration i]) in
  loop_body fmt1 ffmpeg transcribe_with_fallback open_output file_io
    remove_segment_file memory_check handler_cleanup total_duration
    segment_duration i s
  = Next s'
  \/ exists e,
       handler_cleanup i = Raise e
       /\ loop_body fmt1 ffmpeg transcribe_with_fallback open_output file_io
            remove_segment_file memory_check handler_cleanup total_duration
            segment_duration i s
          = Abort e s'.
Proof.
  cbn zeta. unfold loop_body. cbn zeta.
  match goal with
  | |- context [try_block _ _ _ _ _ _ _ _ _ _ ?s1] =>
      destruct (try_block_end i s1) as [E|[E|[e E]]]
  end; cbn [file all_results attempts] in E; rewrite E.
  - left. reflexivity.
  - left. reflexivity.
  - destruct (handler_cleanup i) as [u0|e'].
    + left. reflexivity.
    + right. exists e'. split; reflexivity.
Qed.

(** The loop over [l]: the indices it went through, and what they left. *)
Lemma for_each_state (l : list Z) :
  forall s, exists done rest,
    l = done ++ rest
    /\ state_of
         (for_each
            (loop_body fmt1 ffmpeg transcribe_with_fallback open_output
               file_io remove_segment_file memory_check handler_cleanup
               total_duration segment_duration) l s)
       = mkState
           (file s
            ++ concat
                 (map (saved_text fmt1 ffmpeg transcribe_with_fallback
                         open_output file_io total_duration segment_duration)
                      done))
           (all_results s
            ++ flat_map
                 (completed_result fmt1 ffmpeg transcribe_with_fallback
                    open_output file_io remove_segment_file total_duration
                    segment_duration) done)
           (attempts s
            ++ map (attempt total_duration segment_duration) done)
    /\ ((exists s',
           for_each
             (loop_body fmt1 ffmpeg transcribe_with_fallback open_output
                file_io remove_segment_file memory_check handler_cleanup
                total_duration segment_duration) l s
           = Next s')
        /\ rest = []
        \/ exists e s' i,
             for_each
               (loop_body fmt1 ffmpeg transcribe_with_fallback open_output
                  file_io remove_segment_file memory_check handler_cleanup
                  total_duration segment_duration) l s
             = Abort e s'
             /\ In i done /\ handler_cleanup i = Raise e).
Proof.
  induction l as [|i l IH]; intros s.
  - exists [], []. split; [reflexivity|]. split.
    + cbn [for_each state_of map concat flat_map]. destruct s; simpl.
      rewrite !app_nil_r. reflexivity.
    + left. split; [exists s; reflexivity | reflexivity].
  - cbn [for_each].
    destruct (loop_body_state i s) as [E|(e & H & E)]; rewrite E.
    + match goal with
      | |- context [for_each _ l ?s1] =>
          destruct (IH s1) as (done & rest & L & St & C)
      end.
      exists (i :: done), rest. split; [rewrite L; reflexivity|]. split.
      * rewrite St. cbn [file all_results attempts map concat flat_map].
        rewrite <- !app_assoc. reflexivity.
      * destruct C as [[N R]|(e & s' & j & A & J & H)].
        -- left. split; assumption.
        -- right. exists e, s', j. split; [exact A|].
           split; [right; exact J | exact H].
    + exists [i], l. split; [reflexivity|]. split.
      * cbn [state_of map concat flat_map]. rewrite !app_nil_r. reflexivity.
      * right. eexists e, _, i. split; [reflexivity|].
        split; [left; reflexivity | exact H].
Qed.

Lemma run_state (content : str) :
  snd (transcribe_audio_segments_realtime fmt1 ffmpeg
         transcribe_with_fallback open_output file_io remove_segment_file
         memory_check handler_cleanup total_duration segment_duration content)
  = state_of
      (for_each
         (loop_body fmt1 ffmpeg transcribe_with_fallback open_output file_io
            remove_segment_file memory_check handler_cleanup total_duration
            segment_duration)
         (range (num_segments total_duration segment_duration))
         (mkState content [] [])).
Proof.
  unfold transcribe_audio_segments_realtime. cbn zeta.
  destruct (for_each _ _ _); reflexivity.
Qed.


(** Without a failing file operation and with the segment file removed, what
    a segment leaves in the file is the lines of what it adds to the
    results. *)
Lemma saved_is_collected (i : Z) :
  (forall k, file_io i k = None) ->
  (forall e, remove_segment_file i <> Raise e) ->
  saved_text fmt1 ffmpeg transcribe_with_fallback open_output file_io
    total_duration segment_duration i
  = concat
      (map (lines_of fmt1)
         (completed_result fmt1 ffmpeg transcribe_with_fallback open_output
            file_io remove_segment_file total_duration segment_duration i)).
Proof.
  intros H R. unfold saved_text, completed_result.
  destruct (transcribed _ _ _ _ i) as [r|]; [|reflexivity].
  destruct (open_output i) as [u0|e].
  - rewrite (@appended_ok fmt1 (file_io i) u0 r H).
    rewrite (@save_result_realtime_ok fmt1 (file_io i) u0 r [] H). cbn [fst].
    destruct (remove_segment_file i) as [u1|e]; [|destruct (R e); reflexivity].
    cbn [map concat]. rewrite app_nil_r. reflexivity.
  - reflexivity.
Qed.

End PassFacts.

(** C9: a new checkpoint file holds the header block and nothing else; with
    an existing file nothing is written at creation; every
    [save_result_realtime], whatever raises in it, leaves the previous
    content in front of the new content; it issues a flush directly after
    each write and, when no file operation raises, leaves nothing buffered
    and adds exactly what it wrote; the whole segmentation loop only extends
    the file. *)
Theorem checkpoint_append_only
    (fmt1 : Q -> str) (ffmpeg : Z -> Z -> Q -> outcome Z)
    (transcribe_with_fallback : Z -> outcome result)
    (open_output : Z -> outcome unit) (file_io : Z -> nat -> option exn)
    (remove_segment_file memory_check handler_cleanup : Z -> outcome unit) :
  (forall files new_path hf,
     Checkpoint.create_segmented_transcription fmt1 files None new_path hf
       = (new_path,
          Checkpoint.fs_write files new_path (Checkpoint.header_block fmt1 hf))
     /\ Checkpoint.fs_write files new_path (Checkpoint.header_block fmt1 hf)
          new_path = Some (Checkpoint.header_block fmt1 hf))
  /\ (forall files p old new_path hf,
        files p = Some old ->
        Checkpoint.create_segmented_transcription fmt1 files (Some p)
          new_path hf = (p, files))
  /\ (forall io opened r content,
        exists suffix,
          snd (Checkpoint.save_result_realtime fmt1 io opened r content)
            = content ++ suffix)
  /\ (forall r content,
        Checkpoint.each_write_flushed (Checkpoint.save_ops fmt1 r)
        /\ Checkpoint.do_ops (Checkpoint.open_append content)
             (Checkpoint.save_ops fmt1 r)
           = Checkpoint.mkHandle
               (content
                ++ concat (map Checkpoint.written (Checkpoint.save_ops fmt1 r)))
               [])
  /\ (forall io r content,
        (forall k, io k = None) ->
        Checkpoint.save_result_realtime fmt1 io (Ok tt) r content
        = (Ok tt,
           content
           ++ concat (map Checkpoint.written (Checkpoint.save_ops fmt1 r))))
  /\ (forall total_duration segment_duration content,
        exists suffix,
          Controller.file
            (snd (Controller.transcribe_audio_segments_realtime fmt1 ffmpeg
                    transcribe_with_fallback open_output file_io
                    remove_segment_file memory_check handler_cleanup
                    total_duration segment_duration content))
          = content ++ suffix).
Proof.
  split; [|split; [|split; [|split; [|split]]]].
  - intros files new_path hf. split.
    + unfold Checkpoint.create_segmented_transcription.
      rewrite close_do_ops. unfold Checkpoint.open_write, Checkpoint.header_block.
      cbn [Checkpoint.h_disk Checkpoint.h_buf app]. reflexivity.
    + unfold Checkpoint.fs_write. rewrite str_eqb_refl. reflexivity.
  - intros files p old new_path hf H.
    unfold Checkpoint.create_segmented_transcription. rewrite H. reflexivity.
  - intros io opened r content. eexists. apply save_appends.
  - intros r content. split; [apply save_ops_flushed|].
    apply do_ops_flushed, save_ops_flushed.
  - intros io r content H. apply save_result_realtime_ok. exact H.
  - intros total seg content. rewrite run_state.
    destruct (for_each_state fmt1 ffmpeg transcribe_with_fallback open_output
                file_io remove_segment_file memory_check handler_cleanup
                total seg (Data.range (Segments.num_segments total seg))
                (Controller.mkState content [] []))
      as (done & rest & _ & St & _).
    rewrite St. eexists. reflexivity.
Qed.

Lemma checkpoint_append_only_witness :
  Checkpoint.create_segmented_transcription (fun _ => py "1.0")
    (fun p => if str_eqb p (py "out/result-a-20250101_000000.txt")
              then Some (py "old") else None)
    (Some (py "out/result-a-20250101_000000.txt"))
    (py "out/result-a-20250102_000000.txt")
    (Checkpoint.mkHeader [] [] [] 1 1 1 [] [] [] [])
  = (py "out/result-a-20250101_000000.txt",
     fun p => if str_eqb p (py "out/result-a-20250101_000000.txt")
              then Some (py "old") else None)
  /\ Checkpoint.save_result_realtime (fun _ => py "1.0") Checkpoint.io_ok
       (Ok tt) LoopExample.segment_result (py "old")
     = (Ok tt,
        py "old"
        ++ concat (map Checkpoint.written
             (Checkpoint.save_ops (fun _ => py "1.0")
                LoopExample.segment_result))).
Proof.
  split.
  - apply (proj1 (proj2 (checkpoint_append_only (fun _ => py "1.0")
                           (fun _ _ _ => Ok 0%Z)
                           (fun _ => Raise "RuntimeError"%string)
                           (fun _ => Ok tt) (fun _ _ => None)
                           (fun _ => Ok tt) (fun _ => Ok tt)
                           (fun _ => Ok tt)))
             _ (py "out/result-a-20250101_000000.txt") (py "old")).
    reflexivity.
  - apply (proj1 (proj2 (proj2 (proj2 (proj2
             (checkpoint_append_only (fun _ => py "1.0")
                (fun _ _ _ => Ok 0%Z)
                (fun _ => Raise "RuntimeError"%string)
                (fun _ => Ok tt) (fun _ _ => None)
                (fun _ => Ok tt) (fun _ => Ok tt)
                (fun _ => Ok tt))))))
             Checkpoint.io_ok).
    intros k. reflexivity.
Defined.

(* ------------------------------------------------------------------ *)
(** ** A failing segment is skipped *)

Section LoopFacts.

Import Segments Checkpoint Controller LoopSummary.

Variable fmt1 : Q -> str.
Variable ffmpeg : Z -> Z -> Q -> outcome Z.
Variable transcribe_with_fallback : Z -> outcome result.
Variable open_output : Z -> outcome unit.
Variable file_io : Z -> nat -> option exn.
Variable remove_segment_file : Z -> outcome unit.
Variable memory_check : Z -> outcome unit.
Variable handler_cleanup : Z -> outcome unit.






End LoopFacts.




(* ------------------------------------------------------------------ *)
(** ** Combining results *)

Section CombineFacts.

Import Combine.

Lemma combine_step_app (r : result) (t : str) (cs : list chunk) :
  combine_step (t, cs) r = (t ++ piece r, cs ++ chunks_of r).
Proof.
  unfold combine_step, piece.
  destruct (chunks_of r), (text_of r); cbn [nonempty];
    rewrite ?app_nil_r; reflexivity.
Qed.

Lemma combine_fold (results : list result) (t : str) (cs : list chunk) :
  fold_left combine_step results (t, cs)
  = (t ++ concat (map piece results), cs ++ concat (map chunks_of results)).
Proof.
  revert t cs; induction results as [|r rs IH]; intros t cs.
  - cbn [fold_left map concat]. rewrite !app_nil_r; reflexivity.
  - cbn [fold_left map concat].
    rewrite combine_step_app, IH, <- !app_assoc. reflexivity.
Qed.

End CombineFacts.

(** C8 (amended): the combined text is every non-empty text followed by one
    space, concatenated in order and then stripped; the combined chunk list is
    the concatenation of the chunk lists in order.  Combining ["A "] with
    chunk [s1] and ["B "] with chunk [s2] gives the text ["A  B"], with two
    spaces, and the chunks [s1, s2]. *)
Theorem combine_results_concatenates :
  (forall results,
     Combine.combine_results results
     = mkResult (Some (strip (concat (map Combine.piece results))))
                (Some (concat (map chunks_of results))))
  /\ (forall s1 s2,
        Combine.combine_results
          [mkResult (Some (py "A ")) (Some [s1]);
           mkResult (Some (py "B ")) (Some [s2])]
        = mkResult (Some (py "A  B")) (Some [s1; s2])).
Proof.
  assert (G : forall results,
     Combine.combine_results results
     = mkResult (Some (strip (concat (map Combine.piece results))))
                (Some (concat (map chunks_of results)))).
  { intros results. unfold Combine.combine_results.
    rewrite combine_fold. reflexivity. }
  split; [exact G|]. intros s1 s2. rewrite G. reflexivity.
Qed.

(** C8, as stated, fails on its own example: the text is not ["A B"]. *)
Lemma combine_results_example_two_spaces :
  Combine.combine_results
    [mkResult (Some (py "A "))
       (Some [mkChunk (py "A ") (Some [Some 0%Q; Some 1%Q])]);
     mkResult (Some (py "B "))
       (Some [mkChunk (py "B ") (Some [Some 1%Q; Some 2%Q])])]
  <> mkResult (Some (py "A B"))
       (Some [mkChunk (py "A ") (Some [Some 0%Q; Some 1%Q]);
              mkChunk (py "B ") (Some [Some 1%Q; Some 2%Q])]).
Proof. vm_compute. discriminate. Qed.

(* ------------------------------------------------------------------ *)
(** ** The fallback policy *)

(** C7 (amended): the primary backend runs first.  A backup runs exactly when
    the stripped primary text is ["!"], ["!!!!!!!!!"] or has at most two
    characters and the loaded model is Breeze-ASR-25; it is the faster-whisper
    large-v2 model when that is available, and the whisper-base pipeline when
    it is not or when it raises.  The result of the backup replaces the
    primary result without being inspected; in every other case the primary
    result is returned.  The function raises only when a backend raises or the
    primary result has no text. *)
Theorem fallback_policy
    (model_type model_name : str) (FASTER_WHISPER_AVAILABLE : bool)
    (run : Adapter.backend -> outcome result) :
  let primary := Adapter.primary_backend model_type in
  let call := Adapter.transcribe_with_fallback model_type model_name
                FASTER_WHISPER_AVAILABLE run in
  hd_error (fst call) = Some primary
  /\ (forall r0 t,
        run primary = Ok r0 -> r_text r0 = Some t ->
        (Adapter.needs_backup (strip t) && Adapter.is_breeze model_name = false ->
         call = ([primary], Ok r0))
        /\ (Adapter.needs_backup (strip t) && Adapter.is_breeze model_name = true ->
            (FASTER_WHISPER_AVAILABLE = true ->
             forall r1, run Adapter.BackupFasterWhisper = Ok r1 ->
               call = ([primary; Adapter.BackupFasterWhisper], Ok r1))
            /\ (FASTER_WHISPER_AVAILABLE = true ->
                forall e, run Adapter.BackupFasterWhisper = Raise e ->
                  call = ([primary; Adapter.BackupFasterWhisper;
                           Adapter.BackupWhisperBase],
                          run Adapter.BackupWhisperBase))
            /\ (FASTER_WHISPER_AVAILABLE = false ->
                call = ([primary; Adapter.BackupWhisperBase],
                        run Adapter.BackupWhisperBase)))
        /\ ((exists r, snd call = Ok r)
            \/ (exists e, run Adapter.BackupWhisperBase = Raise e))).
Proof.
  cbn zeta.
  unfold Adapter.transcribe_with_fallback, Adapter.primary_backend,
    Adapter.is_breeze.
  set (primary := if str_eqb model_type _ then _ else _).
  split.
  - destruct (run primary) as [r0|e]; [|reflexivity].
    destruct (r_text r0) as [t|]; [|reflexivity].
    destruct (Adapter.needs_backup _); [|reflexivity].
    destruct (str_eqb model_name _); [|reflexivity].
    destruct FASTER_WHISPER_AVAILABLE; [|reflexivity].
    destruct (run Adapter.BackupFasterWhisper); reflexivity.
  - intros r0 t R T. rewrite R, T.
    destruct (Adapter.needs_backup (strip t));
      destruct (str_eqb model_name _); cbn [andb];
      (split; [intros; try discriminate; try reflexivity|]);
      (split; [intros H; try discriminate|]);
      try (left; eexists; reflexivity).
    + repeat split.
      * intros -> r1 ->. reflexivity.
      * intros -> e ->. reflexivity.
      * intros ->. reflexivity.
    + destruct FASTER_WHISPER_AVAILABLE.
      * destruct (run Adapter.BackupFasterWhisper) as [r1|e1];
          [left; eexists; reflexivity|].
        cbn [snd]. destruct (run Adapter.BackupWhisperBase) as [r2|e2];
          [left | right]; eexists; reflexivity.
      * cbn [snd]. destruct (run Adapter.BackupWhisperBase) as [r2|e2];
          [left | right]; eexists; reflexivity.
Qed.

Lemma fallback_policy_witness :
  Adapter.transcribe_with_fallback (py "transformers") (py "Breeze-ASR-25")
    true
    (fun b => match b with
              | Adapter.PrimaryPipeline => Ok (mkResult (Some (py " ! ")) None)
              | _ => Ok (mkResult (Some (py "hello")) None)
              end)
  = ([Adapter.PrimaryPipeline; Adapter.BackupFasterWhisper],
     Ok (mkResult (Some (py "hello")) None)).
Proof.
  apply (proj1 (proj1 (proj2 (proj2 (fallback_policy (py "transformers")
           (py "Breeze-ASR-25") true
           (fun b => match b with
              | Adapter.PrimaryPipeline => Ok (mkResult (Some (py " ! ")) None)
              | _ => Ok (mkResult (Some (py "hello")) None)
              end))
           (mkResult (Some (py " ! ")) None) (py " ! ") eq_refl eq_refl))
           eq_refl) eq_refl (mkResult (Some (py "hello")) None) eq_refl).
Defined.

(** C7, as stated, fails in both directions of its policy: a primary text of
    nine exclamation marks, which is neither empty, nor a lone punctuation
    mark, nor of length two or less, makes the backup run; and the result of
    that backup is returned although it is empty, without the next backend
    being run. *)
Lemma fallback_runs_on_nine_marks_and_stops_after_one :
  let run := fun b =>
    match b with
    | Adapter.PrimaryFasterWhisper | Adapter.PrimaryPipeline =>
        Ok (mkResult (Some (py "!!!!!!!!!")) None)
    | Adapter.BackupFasterWhisper => Ok (mkResult (Some []) None)
    | Adapter.BackupWhisperBase =>
        Ok (mkResult (Some (py "good morning")) None)
    end in
  Adapter.spec_degenerate (fun c => (c =? 33)%N) (strip (py "!!!!!!!!!"))
    = false
  /\ Adapter.spec_degenerate (fun c => (c =? 33)%N) (strip []) = true
  /\ Adapter.transcribe_with_fallback (py "transformers")
       (py "Breeze-ASR-25") true run
     = ([Adapter.PrimaryPipeline; Adapter.BackupFasterWhisper],
        Ok (mkResult (Some []) None)).
Proof. repeat split. Qed.

(* ------------------------------------------------------------------ *)
(** ** Completeness check *)

Section CompleteFacts.

Import Resume.

(** For an end time other than zero the check is the comparison with the
    total duration less thirty seconds. *)
Lemma is_complete_nonzero (t total : Q) :
  ~ (t == 0)%Q ->
  (is_complete (Some t) total = true <-> (total - 30 <= t)%Q).
Proof.
  intros H. unfold is_complete, truthy.
  destruct (Qeq_bool t 0) eqn:E.
  - apply Qeq_bool_iff in E. contradiction.
  - cbn [negb andb]. apply Qle_bool_iff.
Qed.

(** An end time of zero, like a missing one, is never complete. *)
Lemma is_complete_zero (t total : Q) :
  (t == 0)%Q -> is_complete (Some t) total = false.
Proof.
  intros H. unfold is_complete, truthy.
  apply Qeq_bool_iff in H. rewrite H. reflexivity.
Qed.

Lemma is_complete_none (total : Q) : is_complete None total = false.
Proof. reflexivity. Qed.

End CompleteFacts.

(** C3: with a last end time of 0 s and a total duration of 30 s the last end
    time equals the total less thirty seconds, and the check answers false;
    the same on the file whose last line is [[0.0s - 0.0s] ...].  Away from
    zero the boundary is as stated: 90 s of 120 s is complete, 89.99 s is
    not. *)
Theorem completeness_false_at_zero :
  (0 == 30 - 30)%Q
  /\ Qle_bool (30 - 30) 0 = true
  /\ Resume.is_complete (Some 0%Q) 30 = false
  /\ Resume.is_complete (Some 0%Q) 20 = false
  /\ Resume.last_timestamp
       (fun s => if str_eqb s (py "0.0") then Some 0%Q else None)
       (py "智能分段轉錄結果:" ++ Checkpoint.nl
        ++ py "[0.0s - 0.0s] 大家好" ++ Checkpoint.nl) = Some 0%Q
  /\ Resume.resume_transcription
       (fun s => if str_eqb s (py "0.0") then Some 0%Q else None)
       (py "智能分段轉錄結果:" ++ Checkpoint.nl
        ++ py "[0.0s - 0.0s] 大家好" ++ Checkpoint.nl) 30 = false
  /\ Resume.is_complete (Some 90%Q) 120 = true
  /\ Resume.is_complete (Some 89.99%Q) 120 = false.
Proof. repeat split. Qed.

(* ------------------------------------------------------------------ *)
(** ** Looking up a resumable checkpoint *)

Section LookupFacts.

Import Resume.

Section Sorting.

Variable A : Type.
Variable key : A -> datetime.

Lemma insert_desc_perm (x : A) (l : list A) :
  Permutation (x :: l) (insert_desc key x l).
Proof.
  induction l as [|y l IH]; simpl; [reflexivity|].
  destruct (key y <=? key x)%N; [reflexivity|].
  rewrite perm_swap. constructor. exact IH.
Qed.

Lemma sort_desc_perm (l : list A) : Permutation l (sort_desc key l).
Proof.
  induction l as [|x l IH]; simpl; [constructor|].
  rewrite <- insert_desc_perm. constructor. exact IH.
Qed.

Lemma insert_desc_sorted (x : A) (l : list A) :
  StronglySorted (newer_or_equal key) l ->
  StronglySorted (newer_or_equal key) (insert_desc key x l).
Proof.
  induction 1 as [|y l S IH F]; simpl.
  - constructor; constructor.
  - destruct (N.leb_spec (key y) (key x)) as [L|L].
    + constructor; [constructor; assumption|].
      constructor; [exact L|].
      eapply Forall_impl; [|exact F].
      unfold newer_or_equal. intros; lia.
    + constructor; [exact IH|].
      eapply Permutation_Forall; [apply insert_desc_perm|].
      constructor; [unfold newer_or_equal; lia | exact F].
Qed.

Lemma sort_desc_sorted (l : list A) :
  StronglySorted (newer_or_equal key) (sort_desc key l).
Proof.
  induction l as [|x l IH]; simpl; [constructor|].
  apply insert_desc_sorted, IH.
Qed.

(** The sort is stable: the elements of one key keep their order. *)
Lemma insert_desc_filter (k : datetime) (x : A) (l : list A) :
  filter (fun g => (key g =? k)%N) (insert_desc key x l)
  = filter (fun g => (key g =? k)%N) (x :: l).
Proof.
  induction l as [|y l IH]; [reflexivity|]. cbn [insert_desc].
  destruct (N.leb_spec (key y) (key x)) as [L|L]; [reflexivity|].
  cbn [filter] in IH |- *. rewrite IH.
  destruct (N.eqb_spec (key y) k) as [Y|Y]; [|reflexivity].
  destruct (N.eqb_spec (key x) k) as [X|X]; [lia | reflexivity].
Qed.

Lemma sort_desc_filter (k : datetime) (l : list A) :
  filter (fun g => (key g =? k)%N) (sort_desc key l)
  = filter (fun g => (key g =? k)%N) l.
Proof.
  induction l as [|x l IH]; [reflexivity|].
  cbn [sort_desc fold_right]. rewrite insert_desc_filter.
  cbn [filter]. unfold sort_desc in IH. rewrite IH. reflexivity.
Qed.

(** In a list sorted newest first, what follows an element is not newer. *)
Lemma sorted_after (pre post : list A) (f g : A) :
  StronglySorted (newer_or_equal key) (pre ++ f :: post) ->
  In g post -> (key g <= key f)%N.
Proof.
  induction pre as [|p pre IH]; simpl; intros S G.
  - inversion S as [|? ? _ F]; subst.
    rewrite Forall_forall in F. exact (F g G).
  - inversion S; subst. auto.
Qed.

End Sorting.

Variable fmt1 : Q -> str.
Variable strptime : str -> option datetime.
Variable read : str -> option str.
Variable output_dir : str.
Variable processed_size_mb processed_duration_min : Q.

(** The loop returns at the first matching candidate. *)
Lemma scan_find (result_files : list str) :
  scan fmt1 read output_dir processed_size_mb processed_duration_min
       result_files
  = option_map (answer read output_dir)
      (find (matches fmt1 read output_dir processed_size_mb
                     processed_duration_min) result_files).
Proof.
  induction result_files as [|f l IH]; simpl; [reflexivity|].
  unfold matches.
  destruct (read (path_join output_dir f)) as [content|] eqn:R; [|exact IH].
  destruct (contains _ content && contains _ content); [|exact IH].
  simpl. unfold answer. rewrite R.
  destruct (first_sentence _); reflexivity.
Qed.

Lemma unparsed_is_oldest (f : str) :
  parse_timestamp strptime f = None ->
  extract_timestamp strptime f = datetime_min.
Proof. unfold extract_timestamp. intros ->. reflexivity. Qed.

End LookupFacts.

(** C2 (amended): the candidates are the result files of the listing,
    ordered by the timestamp of the name, newest first, candidates of equal
    timestamp in the order of the listing; a name whose timestamp does not
    parse is ordered as if it were stamped [datetime.min]: every candidate
    with a later timestamp comes before it and whatever comes after it has the
    key [datetime.min] too; the function returns the first candidate, in this
    order, whose content contains both fingerprint lines, and nothing when no
    candidate does or the directory is missing. *)
Theorem resume_lookup_newest_matching
    (fmt1 : Q -> str) (strptime : str -> option Resume.datetime)
    (read : str -> option str) (output_dir : str)
    (processed_size_mb processed_duration_min : Q) (names : list str) :
  let key := Resume.extract_timestamp strptime in
  let cands := Resume.candidates strptime names in
  let matching := Resume.matches fmt1 read output_dir processed_size_mb
                    processed_duration_min in
  let check := Resume.check_existing_transcription fmt1 strptime read
                 output_dir processed_size_mb processed_duration_min in
  Permutation (filter Resume.is_result_file names) cands
  /\ StronglySorted (fun a b => (key b <= key a)%N) cands
  /\ (forall k,
        filter (fun g => (key g =? k)%N) cands
        = filter (fun g => (key g =? k)%N)
            (filter Resume.is_result_file names))
  /\ (forall f, Resume.parse_timestamp strptime f = None ->
        key f = Resume.datetime_min /\ forall g, (key f <= key g)%N)
  /\ (forall pre f post,
        cands = pre ++ f :: post ->
        Resume.parse_timestamp strptime f = None ->
        (forall g, In g post -> key g = Resume.datetime_min)
        /\ (forall g, In g cands -> (Resume.datetime_min < key g)%N ->
              In g pre))
  /\ (forall f,
        matching f = true <->
        exists content,
          read (Resume.path_join output_dir f) = Some content
          /\ contains (Resume.size_line fmt1 processed_size_mb) content = true
          /\ contains (Resume.duration_line fmt1 processed_duration_min)
               content = true)
  /\ check (Some names)
     = option_map (Resume.answer read output_dir) (find matching cands)
  /\ (forall f, find matching cands = Some f ->
        exists sentence,
          check (Some names)
          = Some (Resume.path_join output_dir f, sentence))
  /\ (check (Some names) = None <->
      forall f, In f cands -> matching f = false)
  /\ check None = None.
Proof.
  cbn zeta.
  assert (C : Resume.check_existing_transcription fmt1 strptime read
                output_dir processed_size_mb processed_duration_min
                (Some names)
              = option_map (Resume.answer read output_dir)
                  (find (Resume.matches fmt1 read output_dir
                           processed_size_mb processed_duration_min)
                        (Resume.candidates strptime names))).
  { unfold Resume.check_existing_transcription. apply scan_find. }
  assert (After : forall pre f post,
            Resume.candidates strptime names = pre ++ f :: post ->
            Resume.parse_timestamp strptime f = None ->
            forall g, In g post ->
              Resume.extract_timestamp strptime g = Resume.datetime_min).
  { intros pre f post E H g G.
    pose proof (sort_desc_sorted (Resume.extract_timestamp strptime)
                  (filter Resume.is_result_file names)) as S.
    fold (Resume.candidates strptime names) in S. rewrite E in S.
    pose proof (sorted_after _ _ _ _ S G) as L.
    rewrite (unparsed_is_oldest _ _ H) in L.
    unfold Resume.datetime_min in *. lia. }
  split; [|split; [|split; [|split; [|split; [|split; [|split; [|split;
    [|split]]]]]]]].
  - apply sort_desc_perm.
  - apply sort_desc_sorted.
  - intros k. apply sort_desc_filter.
  - intros f H. rewrite (unparsed_is_oldest _ _ H).
    split; [reflexivity|]. intros g. unfold Resume.datetime_min. lia.
  - intros pre f post E H. split; [exact (After pre f post E H)|].
    intros g G K. rewrite E in G.
    apply in_app_or in G as [G|[G|G]]; [exact G | |].
    + subst g. rewrite (unparsed_is_oldest _ _ H) in K. lia.
    + rewrite (After pre f post E H g G) in K. lia.
  - intros f. unfold Resume.matches.
    destruct (read _) as [content|].
    + rewrite andb_true_iff. split.
      * intros [H1 H2]. exists content. auto.
      * intros (c & E & H1 & H2). inversion E; subst. auto.
    + split; [discriminate | intros (c & E & _); discriminate].
  - exact C.
  - intros f F. rewrite C, F. simpl. unfold Resume.answer.
    destruct (read _) as [content|]; [|eexists; reflexivity].
    destruct (Resume.first_sentence _); eexists; reflexivity.
  - rewrite C. split.
    + intros H f Hin.
      destruct (find _ _) as [g|] eqn:F; [discriminate|].
      exact (find_none _ _ F f Hin).
    + intros H. destruct (find _ _) as [g|] eqn:F; [|reflexivity].
      apply find_some in F as [Hin M]. rewrite (H g Hin) in M. discriminate.
  - reflexivity.
Qed.

Example candidates_newest_first :
  Resume.candidates LookupExample.strptime LookupExample.names
  = [py "result-source-20250904_101500.txt";
     py "result-source-20250903_220356.txt";
     py "result-source-bad.txt"].
Proof. reflexivity. Qed.

Lemma resume_lookup_newest_matching_witness :
  exists sentence,
    Resume.check_existing_transcription LookupExample.fmt1
      LookupExample.strptime LookupExample.read (py "out") 12.34%Q 12.34%Q
      (Some LookupExample.names)
    = Some (py "out/result-source-20250904_101500.txt", sentence).
Proof.
  apply (proj1 (proj2 (proj2 (proj2 (proj2 (proj2 (proj2 (proj2
           (resume_lookup_newest_matching LookupExample.fmt1
              LookupExample.strptime LookupExample.read (py "out")
              12.34%Q 12.34%Q LookupExample.names))))))))
           (py "result-source-20250904_101500.txt")).
  reflexivity.
Defined.

(** C2, as stated, fails on a tie with [datetime.min]: a name whose timestamp
    does not parse, listed before a name stamped [00010101_000000], is sorted
    first, in front of a name that parses, and is the one returned. *)
Lemma unparsed_name_first_on_tie :
  Resume.parse_timestamp TieExample.strptime (py "result-source-bad.txt")
    = None
  /\ Resume.parse_timestamp TieExample.strptime
       (py "result-source-00010101_000000.txt") = Some Resume.datetime_min
  /\ Resume.candidates TieExample.strptime TieExample.names
     = [py "result-source-bad.txt"; py "result-source-00010101_000000.txt"]
  /\ (exists sentence,
        Resume.check_existing_transcription LookupExample.fmt1
          TieExample.strptime LookupExample.read (py "out") 12.34%Q 12.34%Q
          (Some TieExample.names)
        = Some (py "out/result-source-bad.txt", sentence))
  /\ ~ (forall (strptime : str -> option Resume.datetime) (names : list str)
               (pre : list str) (f : str) (post : list str),
          Resume.candidates strptime names = pre ++ f :: post ->
          Resume.parse_timestamp strptime f = None ->
          forall g, In g post -> Resume.parse_timestamp strptime g = None).
Proof.
  split; [reflexivity|]. split; [reflexivity|]. split; [reflexivity|].
  split; [eexists; reflexivity|].
  intros H.
  pose proof (H TieExample.strptime TieExample.names []
                (py "result-source-bad.txt")
                [py "result-source-00010101_000000.txt"]
                eq_refl eq_refl (py "result-source-00010101_000000.txt")
                (or_introl eq_refl)) as X.
  discriminate X.
Qed.

(* ------------------------------------------------------------------ *)
(** ** Hardware profile and run parameters *)

Section HardwareFacts.

Import Hardware.

Lemma py_min_le_l (a b : Q) : (py_min a b <= a)%Q.
Proof.
  unfold py_min, Qlt_bool. destruct (Qle_bool a b) eqn:E; simpl.
  - apply Qle_refl.
  - destruct (Qlt_le_dec b a) as [L|L]; [apply Qlt_le_weak, L|].
    apply Qle_bool_iff in L. congruence.
Qed.

Lemma py_min_le_r (a b : Q) : (py_min a b <= b)%Q.
Proof.
  unfold py_min, Qlt_bool. destruct (Qle_bool a b) eqn:E; simpl.
  - apply Qle_bool_iff, E.
  - apply Qle_refl.
Qed.

Lemma py_min_glb (a b c : Q) : (c <= a)%Q -> (c <= b)%Q -> (c <= py_min a b)%Q.
Proof. unfold py_min. destruct (Qlt_bool b a); auto. Qed.

Lemma py_max_ge_l (a b : Q) : (a <= py_max a b)%Q.
Proof.
  unfold py_max, Qlt_bool. destruct (Qle_bool b a) eqn:E; simpl.
  - apply Qle_refl.
  - destruct (Qlt_le_dec a b) as [L|L]; [apply Qlt_le_weak, L|].
    apply Qle_bool_iff in L. congruence.
Qed.

Lemma py_max_ge_r (a b : Q) : (b <= py_max a b)%Q.
Proof.
  unfold py_max, Qlt_bool. destruct (Qle_bool b a) eqn:E; simpl.
  - apply Qle_bool_iff, E.
  - apply Qle_refl.
Qed.

Lemma py_max_lub (a b c : Q) : (a <= c)%Q -> (b <= c)%Q -> (py_max a b <= c)%Q.
Proof. unfold py_max. destruct (Qlt_bool a b); auto. Qed.

Lemma Qle_bool_mono (k a b : Q) :
  (a <= b)%Q -> Qle_bool k a = true -> Qle_bool k b = true.
Proof.
  intros L H. apply Qle_bool_iff. apply Qle_bool_iff in H.
  apply Qle_trans with a; assumption.
Qed.

End HardwareFacts.

(** X1: the segment length is 60, 90 or 120 seconds and grows with the
    available memory; the stride is 5 or 6 seconds, 6 exactly for segments of
    120 seconds, so the upper clamp of 15 is never reached; the batch size is
    2 exactly for segments of 120 seconds. *)
Theorem optimized_segments_and_stride (hw hw' : Hardware.hardware_info) :
  let p := Hardware._optimize_parameters hw in
  let p' := Hardware._optimize_parameters hw' in
  (Hardware.segment_duration p = 60 \/ Hardware.segment_duration p = 90
   \/ Hardware.segment_duration p = 120)%Z
  /\ (Hardware.stride_duration p = 5 \/ Hardware.stride_duration p = 6)%Z
  /\ (Hardware.stride_duration p = 6 <-> Hardware.segment_duration p = 120)%Z
  /\ (Hardware.batch_size p = 2 <-> Hardware.segment_duration p = 120)%Z
  /\ (Hardware.segment_duration p = 120%Z
      <-> (16 <= Hardware.available_memory_gb hw)%Q)
  /\ ((Hardware.available_memory_gb hw <= Hardware.available_memory_gb hw')%Q
      -> (Hardware.segment_duration p <= Hardware.segment_duration p')%Z).
Proof.
  cbn zeta. unfold Hardware._optimize_parameters.
  cbn [Hardware.segment_duration Hardware.stride_duration Hardware.batch_size].
  set (m := Hardware.available_memory_gb hw).
  set (m' := Hardware.available_memory_gb hw').
  assert (M : Qle_bool 16 m = true -> Qle_bool 8 m = true).
  { intros H. apply Qle_bool_iff. apply Qle_bool_iff in H.
    apply Qle_trans with (2 := H). discriminate. }
  destruct (Qle_bool 16 m) eqn:E16; destruct (Qle_bool 8 m) eqn:E8;
    try (specialize (M eq_refl); discriminate);
    (split; [auto|]); (split; [vm_compute; auto|]);
    (split; [vm_compute; split; congruence|]);
    (split; [split; congruence|]);
    (split; [rewrite <- Qle_bool_iff, E16; split; congruence|]);
    intros L.
  - rewrite (Qle_bool_mono _ L E16). lia.
  - rewrite (Qle_bool_mono _ L E8).
    destruct (Qle_bool 16 m'); lia.
  - destruct (Qle_bool 16 m'); [lia|]. destruct (Qle_bool 8 m'); lia.
Qed.

Lemma optimized_segments_and_stride_witness :
  (Hardware.segment_duration
     (Hardware._optimize_parameters
        (Hardware.mkHardware 16 6 50 false false false 0 [] [] []))
   <= Hardware.segment_duration
        (Hardware._optimize_parameters
           (Hardware.mkHardware 32 12 50 false false false 0 [] [] [])))%Z.
Proof.
  apply (proj2 (proj2 (proj2 (proj2 (proj2 (optimized_segments_and_stride
           (Hardware.mkHardware 16 6 50 false false false 0 [] [] [])
           (Hardware.mkHardware 32 12 50 false false false 0 [] [] []))))))).
  vm_compute. discriminate.
Defined.

(** X2: the gain cap of the run parameters lies between 5 and 15 dB and grows
    with the available memory; the gain [preprocess_audio] applies lies
    between 0 and that cap, is the cap when the analysis failed, and is 0 for
    audio whose mean volume is -12 dB or more. *)
Theorem volume_boost_bounds (hw hw' : Hardware.hardware_info)
    (audio_volume : option Q) :
  let cap := Hardware.volume_boost (Hardware._optimize_parameters hw) in
  let cap' := Hardware.volume_boost (Hardware._optimize_parameters hw') in
  let boost := Hardware.preprocess_volume_boost audio_volume cap in
  (5 <= cap <= 15)%Q
  /\ ((Hardware.available_memory_gb hw <= Hardware.available_memory_gb hw')%Q
      -> (cap <= cap')%Q)
  /\ (0 <= boost <= cap)%Q
  /\ (audio_volume = None -> boost = cap)
  /\ (forall v, audio_volume = Some v -> (-12 <= v)%Q -> (boost == 0)%Q).
Proof.
  cbn zeta. unfold Hardware._optimize_parameters.
  cbn [Hardware.volume_boost].
  set (m := Hardware.available_memory_gb hw).
  set (m' := Hardware.available_memory_gb hw').
  assert (B : forall x, (5 <= py_min 15 (Hardware.py_max 5 x) <= 15)%Q).
  { intros x. split; [|apply py_min_le_l].
    apply py_min_glb; [discriminate | apply py_max_ge_l]. }
  split; [apply B|]. split.
  - intros L. apply py_min_glb; [apply py_min_le_l|].
    apply Qle_trans with (1 := py_min_le_r _ _).
    apply py_max_lub; [apply py_max_ge_l|].
    apply Qle_trans with (2 := py_max_ge_r _ _).
    apply Qplus_le_compat; [apply Qle_refl|].
    apply Qmult_le_compat_r; [|discriminate].
    apply Qplus_le_compat; [exact L | apply Qle_refl].
  - unfold Hardware.preprocess_volume_boost.
    destruct audio_volume as [v|].
    + split; [split|split; [discriminate|]].
      * apply py_min_glb; [apply py_max_ge_l|].
        apply Qle_trans with (2 := proj1 (B _)). discriminate.
      * apply py_min_le_r.
      * intros v0 E L. inversion E; subst v0.
        apply Qle_antisym.
        -- apply Qle_trans with (1 := py_min_le_l _ _).
           apply py_max_lub; [apply Qle_refl | lra].
        -- apply py_min_glb; [apply py_max_ge_l|].
           apply Qle_trans with (2 := proj1 (B _)). discriminate.
    + split; [split; [|apply Qle_refl]|split; [reflexivity|discriminate]].
      apply Qle_trans with (2 := proj1 (B _)). discriminate.
Qed.

Lemma volume_boost_bounds_witness :
  (Hardware.volume_boost
     (Hardware._optimize_parameters
        (Hardware.mkHardware 16 6 50 false false false 0 [] [] []))
   <= Hardware.volume_boost
        (Hardware._optimize_parameters
           (Hardware.mkHardware 32 12 50 false false false 0 [] [] [])))%Q
  /\ (Hardware.preprocess_volume_boost (Some (-5)%Q)
        (Hardware.volume_boost
           (Hardware._optimize_parameters
              (Hardware.mkHardware 16 6 50 false false false 0 [] [] [])))
      == 0)%Q.
Proof.
  pose proof (volume_boost_bounds
                (Hardware.mkHardware 16 6 50 false false false 0 [] [] [])
                (Hardware.mkHardware 32 12 50 false false false 0 [] [] [])
                (Some (-5)%Q)) as (_ & M & _ & _ & Z).
  split.
  - apply M. vm_compute. discriminate.
  - apply (Z (-5)%Q eq_refl). vm_compute. discriminate.
Defined.

(** X3: whatever the machine, the acceleration text that [_detect_hardware]
    produces is neither ["CUDA"] nor ["MPS"], so [_load_faster_whisper_model]
    always picks the medium model with int8. *)
Theorem faster_whisper_always_medium (fmt1 : Q -> str) (p : Hardware.probe) :
  Hardware.faster_whisper_choice (Hardware._detect_hardware fmt1 p)
  = (py "medium", py "int8").
Proof.
  unfold Hardware.faster_whisper_choice, Hardware._detect_hardware.
  destruct (str_eqb (Hardware.p_machine p) _ && str_eqb (Hardware.p_system p) _);
    destruct (Hardware.p_mps_available p);
    destruct (Hardware.p_cuda_available p); reflexivity.
Qed.

(** X4: the device is ["cpu"] or ["cuda"]; it is ["cuda"] exactly when CUDA is
    available and the machine is not an Apple Silicon with MPS; half precision
    is combined with the ["cpu"] device exactly on an Apple Silicon with
    MPS. *)
Theorem device_and_precision (fmt1 : Q -> str) (p : Hardware.probe) :
  let hw := Hardware._detect_hardware fmt1 p in
  let apple_mps := Hardware.is_apple_silicon hw && Hardware.has_mps hw in
  (Hardware.device hw = py "cpu" \/ Hardware.device hw = py "cuda")
  /\ (Hardware.device hw = py "cuda"
      <-> Hardware.has_cuda hw = true /\ apple_mps = false)
  /\ (Hardware.torch_dtype (Hardware._optimize_parameters hw)
        = Hardware.Float16
      /\ Hardware.device hw = py "cpu"
      <-> apple_mps = true).
Proof.
  cbn zeta.
  unfold Hardware._optimize_parameters, Hardware._detect_hardware.
  destruct (str_eqb (Hardware.p_machine p) _ && str_eqb (Hardware.p_system p) _);
    destruct (Hardware.p_mps_available p);
    destruct (Hardware.p_cuda_available p);
    cbn [andb Hardware.device Hardware.has_cuda Hardware.has_mps
         Hardware.is_apple_silicon Hardware.torch_dtype
         Hardware.available_memory_gb];
    try destruct (Qle_bool 8 _);
    (split; [auto|]); split; split;
    try solve [intros [? ?]; try discriminate; auto
              | intros ?; try discriminate; auto].
Qed.

(** X5: the chunk estimate of [get_file_info] is at least 1 and is not the
    number of segments the loop goes through: the loop makes one attempt
    more, unless the audio is shorter than one segment, where both are 1. *)
Theorem estimated_chunks_vs_loop (duration_minutes : Q) (seg : Z) :
  (0 <= duration_minutes)%Q -> (0 < seg)%Z ->
  let total_duration := (duration_minutes * 60)%Q in
  let chunks := Hardware.estimated_chunks duration_minutes seg in
  let n := Segments.num_segments total_duration seg in
  (1 <= chunks)%Z
  /\ ((total_duration < inject_Z seg)%Q -> chunks = 1%Z /\ n = 1%Z)
  /\ ((inject_Z seg <= total_duration)%Q -> n = (chunks + 1)%Z).
Proof.
  intros Hd Hs. cbn zeta.
  assert (Ht : (0 <= duration_minutes * 60)%Q) by lra.
  unfold Hardware.estimated_chunks.
  rewrite (num_segments_floor Ht Hs).
  rewrite (py_int_floor (quotient_nonneg Ht Hs)).
  set (q := (duration_minutes * 60 / inject_Z seg)%Q).
  pose proof (Qfloor_resp_le _ _ (quotient_nonneg Ht Hs)) as F0.
  change (Qfloor 0) with 0%Z in F0. fold q in F0.
  split; [lia|]. split.
  - intros L.
    assert (F1 : (Qfloor q < 1)%Z).
    { destruct (Z_lt_le_dec (Qfloor q) 1) as [|G]; [assumption|].
      exfalso.
      assert (B : (inject_Z 1 <= q)%Q).
      { apply Qle_trans with (2 := Qfloor_le q). rewrite <- Zle_Qle. exact G. }
      apply (below_quotient Hs) in B. rewrite Z.mul_1_l in B.
      exact (Qlt_irrefl _ (Qlt_le_trans _ _ _ L B)). }
    lia.
  - intros G.
    assert (F1 : (1 <= Qfloor q)%Z).
    { destruct (Z_lt_le_dec (Qfloor q) 1) as [L|]; [|assumption].
      exfalso.
      assert (A : (q < inject_Z 1)%Q).
      { apply Qlt_le_trans with (1 := Qlt_floor q).
        rewrite <- Zle_Qle. lia. }
      apply (above_quotient Hs) in A. rewrite Z.mul_1_l in A.
      exact (Qlt_irrefl _ (Qlt_le_trans _ _ _ A G)). }
    lia.
Qed.

Lemma estimated_chunks_vs_loop_witness :
  Segments.num_segments (2.5 * 60) 60
  = (Hardware.estimated_chunks 2.5 60 + 1)%Z.
Proof.
  apply (proj2 (proj2 (@estimated_chunks_vs_loop 2.5%Q 60%Z
           ltac:(vm_compute; discriminate) ltac:(lia)))).
  vm_compute. discriminate.
Defined.

(* ------------------------------------------------------------------ *)
(** ** More on strings *)

Section MoreStringFacts.

Lemma char_eqb_refl (c : char) : char_eqb c c = true.
Proof. apply N.eqb_refl. Qed.

Lemma startswith_app (p s : str) : startswith p (p ++ s) = true.
Proof.
  induction p as [|x p IH]; simpl; [reflexivity|].
  rewrite char_eqb_refl. exact IH.
Qed.

Lemma startswith_app_l (p s t : str) :
  startswith p s = true -> startswith p (s ++ t) = true.
Proof.
  revert s; induction p as [|x p IH]; intros [|y s]; simpl; try easy.
  rewrite !andb_true_iff. intros [E H]. auto.
Qed.

Lemma contains_app_r (sub pre s : str) :
  contains sub s = true -> contains sub (pre ++ s) = true.
Proof.
  intros H. induction pre as [|x pre IH]; simpl; [exact H|].
  simpl in IH. rewrite IH. apply orb_true_r.
Qed.

Lemma contains_app_l (sub s t : str) :
  contains sub s = true -> contains sub (s ++ t) = true.
Proof.
  induction s as [|x s IH]; simpl.
  - rewrite orb_false_r. intros H. destruct sub; [|discriminate].
    destruct t; reflexivity.
  - rewrite !orb_true_iff. intros [H|H].
    + left. apply (@startswith_app_l sub (x :: s) t H).
    + right. auto.
Qed.

Lemma contains_here (sub s : str) :
  startswith sub s = true -> contains sub s = true.
Proof. intros H. destruct s; simpl in *; rewrite H; reflexivity. Qed.

Lemma contains_mid (sub pre post : str) :
  contains sub (pre ++ sub ++ post) = true.
Proof. apply contains_app_r, contains_here, startswith_app. Qed.

Lemma no_char_app (c : char) (a b : str) :
  Naming.no_char c (a ++ b) = Naming.no_char c a && Naming.no_char c b.
Proof. apply forallb_app. Qed.

(** Splitting at a character splits both sides of an occurrence. *)
Lemma split_char_app (c : char) (a b cur : str) :
  split_go [c] 0 cur (a ++ c :: b)
  = split_go [c] 0 cur a ++ split_go [c] 0 [] b.
Proof.
  revert cur; induction a as [|x a IH]; intros cur.
  - simpl. rewrite char_eqb_refl. reflexivity.
  - cbn [app split_go startswith]. rewrite !andb_true_r.
    destruct (char_eqb c x).
    + cbn [length Nat.sub]. rewrite IH. reflexivity.
    + apply IH.
Qed.

(** A text without the first character of the separator is one piece. *)
Lemma split_go_none (c : char) (sep' a cur : str) :
  Naming.no_char c a = true ->
  split_go (c :: sep') 0 cur a = [rev cur ++ a].
Proof.
  revert cur; induction a as [|x a IH]; intros cur H.
  - simpl. rewrite app_nil_r; reflexivity.
  - simpl in H. apply andb_true_iff in H as [Hx H].
    assert (E : char_eqb c x = false).
    { unfold char_eqb in *. rewrite N.eqb_sym. apply negb_true_iff, Hx. }
    cbn [split_go startswith]. rewrite E. cbn [andb].
    rewrite (IH (x :: cur) H). simpl. rewrite <- app_assoc. reflexivity.
Qed.



Lemma remove_go_skip (old k : str) :
  remove_go old (length k) k = [].
Proof. induction k as [|x k IH]; simpl; [reflexivity | exact IH]. Qed.

(** Removing a suffix whose first character does not occur before it. *)
Lemma remove_all_suffix (c : char) (old' t : str) :
  Naming.no_char c t = true ->
  remove_all (c :: old') (t ++ c :: old') = t.
Proof.
  unfold remove_all. induction t as [|x t IH]; intros H.
  - cbn [app remove_go startswith].
    rewrite char_eqb_refl. cbn [andb].
    rewrite <- (app_nil_r old') at 2. rewrite startswith_app.
    cbn [length Nat.sub]. rewrite Nat.sub_0_r. apply remove_go_skip.
  - simpl in H. apply andb_true_iff in H as [Hx H].
    assert (E : char_eqb c x = false).
    { unfold char_eqb in *. rewrite N.eqb_sym. apply negb_true_iff, Hx. }
    cbn [app remove_go startswith]. rewrite E. cbn [andb].
    rewrite (IH H). reflexivity.
Qed.

Lemma lstrip_all_space (s : str) :
  forallb isspace s = true -> lstrip s = [].
Proof.
  induction s as [|x s IH]; simpl; [reflexivity|].
  destruct (isspace x); simpl; [exact IH | discriminate].
Qed.

Lemma lstrip_app (a b : str) :
  lstrip (a ++ b)
  = if forallb isspace a then lstrip b else lstrip a ++ b.
Proof.
  induction a as [|x a IH]; simpl; [reflexivity|].
  destruct (isspace x); simpl; [exact IH | reflexivity].
Qed.

(** Trailing whitespace is dropped behind a non-space character only. *)
Lemma rstrip_app (p q : str) (z : char) :
  isspace z = false ->
  rstrip ((p ++ [z]) ++ q) = (p ++ [z]) ++ rstrip q.
Proof.
  intros Hz. unfold rstrip. rewrite rev_app_distr, lstrip_app.
  destruct (forallb isspace (rev q)) eqn:E.
  - rewrite (@lstrip_all_space _ E). simpl. rewrite app_nil_r.
    rewrite rev_app_distr. simpl. rewrite Hz.
    change (z :: rev p) with ([z] ++ rev p).
    rewrite rev_app_distr, rev_involutive. reflexivity.
  - rewrite rev_app_distr, rev_involutive. reflexivity.
Qed.

Lemma endswith_app (p s : str) : endswith p (s ++ p) = true.
Proof. unfold endswith. rewrite rev_app_distr. apply startswith_app. Qed.

End MoreStringFacts.

(* ------------------------------------------------------------------ *)
(** ** The ranges of the loop, and what the loop adds *)

(** X6: for a non-negative total duration and a positive segment length the
    ranges of the loop start at 0, each one ends where the next one starts,
    the last one ends at the total duration, and no range has a negative
    length. *)
Theorem segments_cover_total (total : Q) (seg : Z) :
  (0 <= total)%Q -> (0 < seg)%Z ->
  let n := Segments.num_segments total seg in
  (1 <= n)%Z
  /\ length (Segments.segment_ranges total seg) = Z.to_nat n
  /\ Segments.start_time 0 seg = 0%Z
  /\ (forall i, (0 <= i)%Z -> (i + 1 < n)%Z ->
        Segments.end_time i seg total
        = inject_Z (Segments.start_time (i + 1) seg))
  /\ Segments.end_time (n - 1) seg total = total
  /\ (forall i, (0 <= i < n)%Z ->
        (inject_Z (Segments.start_time i seg)
         <= Segments.end_time i seg total)%Q).
Proof.
  intros Ht Hs. cbn zeta.
  pose proof (num_segments_pos Ht Hs) as P.
  split; [exact P|]. split.
  { unfold Segments.segment_ranges, Data.range.
    rewrite !length_map, length_seq. reflexivity. }
  split; [reflexivity|]. split; [intros i; apply (end_time_inner Ht Hs)|].
  split; [apply (end_time_last Ht Hs)|].
  intros i [H0 Hn].
  destruct (Z_lt_le_dec (i + 1) (Segments.num_segments total seg)) as [L|G].
  - rewrite (end_time_inner Ht Hs H0 L). unfold Segments.start_time.
    rewrite <- Zle_Qle. nia.
  - replace i with (Segments.num_segments total seg - 1)%Z by lia.
    rewrite (end_time_last Ht Hs). unfold Segments.start_time.
    apply (below_quotient Hs).
    rewrite (num_segments_floor Ht Hs).
    replace (Qfloor (total / inject_Z seg) + 1 - 1)%Z
      with (Qfloor (total / inject_Z seg)) by lia.
    apply Qfloor_le.
Qed.

Lemma segments_cover_total_witness :
  Segments.end_time (Segments.num_segments 130 60 - 1) 60 130 = 130%Q.
Proof.
  apply (proj1 (proj2 (proj2 (proj2 (proj2
           (@segments_cover_total 130%Q 60%Z
              ltac:(vm_compute; discriminate) ltac:(lia))))))).
Defined.

Section LoopSummaryFacts.

Import Segments Checkpoint Controller LoopSummary.

Variable fmt1 : Q -> str.
Variable ffmpeg : Z -> Z -> Q -> outcome Z.
Variable transcribe_with_fallback : Z -> outcome result.
Variable open_output : Z -> outcome unit.
Variable file_io : Z -> nat -> option exn.
Variable remove_segment_file : Z -> outcome unit.
Variable total_duration : Q.
Variable segment_duration : Z.

Lemma saved_are_collected (l : list Z) :
  (forall i k, file_io i k = None) ->
  (forall i e, remove_segment_file i <> Raise e) ->
  concat (map (saved_text fmt1 ffmpeg transcribe_with_fallback open_output
                 file_io total_duration segment_duration) l)
  = concat (map (lines_of fmt1)
      (flat_map (completed_result fmt1 ffmpeg transcribe_with_fallback
                   open_output file_io remove_segment_file total_duration
                   segment_duration) l)).
Proof.
  intros H R. induction l as [|i l IH]; [reflexivity|].
  cbn [map concat flat_map]. rewrite map_app, concat_app, IH.
  rewrite (@saved_is_collected fmt1 ffmpeg transcribe_with_fallback
             open_output file_io remove_segment_file total_duration
             segment_duration i (H i) (R i)).
  reflexivity.
Qed.

End LoopSummaryFacts.

(** X7: the loop goes through a front part of the indices, all of them when
    it returns; the results it has collected then are those of the segments
    whose append and whose removal of the segment file went through, in index
    order, and what it returns is their combination; the file is the initial
    content followed by what the append of each attempted segment left there.
    When no file operation raises and every segment file can be removed, that
    text is the lines of exactly the collected results. *)
Theorem loop_appends_completed_segments
    (fmt1 : Q -> str) (ffmpeg : Z -> Z -> Q -> outcome Z)
    (transcribe_with_fallback : Z -> outcome result)
    (open_output : Z -> outcome unit) (file_io : Z -> nat -> option exn)
    (remove_segment_file memory_check handler_cleanup : Z -> outcome unit)
    (total_duration : Q) (segment_duration : Z) (content : str) :
  let run := Controller.transcribe_audio_segments_realtime fmt1 ffmpeg
               transcribe_with_fallback open_output file_io
               remove_segment_file memory_check handler_cleanup
               total_duration segment_duration content in
  let collected := LoopSummary.completed_result fmt1 ffmpeg
                     transcribe_with_fallback open_output file_io
                     remove_segment_file total_duration segment_duration in
  let saved := LoopSummary.saved_text fmt1 ffmpeg transcribe_with_fallback
                 open_output file_io total_duration segment_duration in
  exists done rest,
    Data.range (Segments.num_segments total_duration segment_duration)
      = done ++ rest
    /\ Controller.attempts (snd run)
       = map (Controller.attempt total_duration segment_duration) done
    /\ Controller.all_results (snd run) = flat_map collected done
    /\ Controller.file (snd run) = content ++ concat (map saved done)
    /\ (forall r, fst run = Ok r ->
          rest = [] /\ r = Combine.combine_results (flat_map collected done))
    /\ ((forall i k, file_io i k = None) ->
        (forall i e, remove_segment_file i <> Raise e) ->
        Controller.file (snd run)
        = content ++ concat (map (lines_of fmt1) (flat_map collected done))).
Proof.
  cbn zeta. rewrite run_state.
  unfold Controller.transcribe_audio_segments_realtime.
  destruct (for_each_state fmt1 ffmpeg transcribe_with_fallback open_output
              file_io remove_segment_file memory_check handler_cleanup
              total_duration segment_duration
              (Data.range (Segments.num_segments total_duration
                             segment_duration))
              (Controller.mkState content [] []))
    as (done & rest & L & St & C).
  exists done, rest. rewrite St.
  cbn [Controller.attempts Controller.all_results Controller.file app].
  split; [exact L|]. split; [reflexivity|]. split; [reflexivity|].
  split; [reflexivity|]. split.
  - intros r. destruct C as [[[s' N] R]|(e & s' & i & A & _)].
    + rewrite N in St |- *. cbn [Controller.state_of] in St. rewrite St.
      cbn [fst Controller.all_results app]. intros X. inversion X.
      split; [exact R | reflexivity].
    + rewrite A. discriminate.
  - intros H R.
    rewrite (@saved_are_collected fmt1 ffmpeg transcribe_with_fallback
               open_output file_io remove_segment_file total_duration
               segment_duration done H R).
    reflexivity.
Qed.

Lemma loop_appends_completed_segments_witness :
  Controller.file
    (snd (Controller.transcribe_audio_segments_realtime LoopExample.fmt1
            (fun i _ _ => if (i =? 1)%Z then Ok 1%Z else Ok 0%Z)
            (fun i => Ok LoopExample.segment_result)
            (fun _ => Ok tt) (fun _ _ => None) (fun _ => Ok tt)
            (fun _ => Ok tt) (fun _ => Ok tt) 130%Q 60%Z (py "header")))
  = py "header" ++ py "[1.0s - 2.0s] hello world" ++ Checkpoint.nl
    ++ py "[121.0s - 122.0s] hello world" ++ Checkpoint.nl.
Proof.
  destruct (loop_appends_completed_segments LoopExample.fmt1
              (fun i _ _ => if (i =? 1)%Z then Ok 1%Z else Ok 0%Z)
              (fun i => Ok LoopExample.segment_result)
              (fun _ => Ok tt) (fun _ _ => None) (fun _ => Ok tt)
              (fun _ => Ok tt) (fun _ => Ok tt) 130%Q 60%Z (py "header"))
    as (done & rest & L & _ & _ & _ & R & F).
  edestruct R as [Rn _]; [reflexivity|]. subst rest.
  rewrite app_nil_r in L. subst done.
  rewrite F; [reflexivity | intros i k; reflexivity | intros i e; discriminate].
Defined.

(* ------------------------------------------------------------------ *)
(** ** Creating a checkpoint and finding it again *)

Section RoundTripFacts.

Import Checkpoint Resume Naming.

Variable fmt1 : Q -> str.

(** The header block in three parts: the title line, the lines up to the
    fingerprint, and the rest. *)
Lemma header_block_parts (hf : header_fields) :
  exists mid post,
    header_block fmt1 hf
    = title ++ nl
      ++ mid
      ++ (size_line fmt1 (size_mb hf) ++ nl)
      ++ (duration_line fmt1 (duration_min hf) ++ nl)
      ++ post.
Proof.
  eexists (concat (map written (firstn 7 (skipn 1 (header_ops fmt1 hf))))).
  eexists (concat (map written (skipn 10 (header_ops fmt1 hf)))).
  unfold header_block, header_ops, size_line, duration_line, title.
  cbn [firstn skipn map written concat].
  repeat (rewrite <- ?app_assoc; cbn [app]).
  reflexivity.
Qed.

(** Both fingerprint lines are in the header, whatever follows it. *)
Lemma header_contains_fingerprint (hf : header_fields) (suffix : str) :
  contains (size_line fmt1 (size_mb hf)) (header_block fmt1 hf ++ suffix)
    = true
  /\ contains (duration_line fmt1 (duration_min hf))
       (header_block fmt1 hf ++ suffix) = true.
Proof.
  destruct (header_block_parts hf) as (mid & post & E). rewrite E. split.
  - rewrite <- !app_assoc.
    rewrite (app_assoc title), (app_assoc (title ++ nl)).
    apply contains_mid.
  - rewrite <- !app_assoc.
    rewrite (app_assoc title), (app_assoc (title ++ nl)),
      (app_assoc ((title ++ nl) ++ mid)),
      (app_assoc (((title ++ nl) ++ mid) ++ _)).
    apply contains_mid.
Qed.

Lemma split_go_nonempty (sep s cur : str) (skip : nat) :
  1 <= length (split_go sep skip cur s).
Proof.
  revert cur skip; induction s as [|x s IH]; intros cur skip; simpl; [lia|].
  destruct skip; [|apply IH].
  destruct (startswith sep (x :: s)); simpl; [lia | apply IH].
Qed.

Lemma stamp_no_char (c : char) (ts : str) :
  stamp_char c = false -> forallb stamp_char ts = true -> no_char c ts = true.
Proof.
  intros Hc. induction ts as [|x ts IH]; simpl; [reflexivity|].
  rewrite !andb_true_iff. intros [Hx H]. split; [|auto].
  unfold char_eqb. destruct (N.eqb_spec x c); [subst; congruence | reflexivity].
Qed.

Lemma first_sentence_title (rest : list str) :
  first_sentence (title :: rest) = Some title.
Proof. reflexivity. Qed.

End RoundTripFacts.

Lemma created_checkpoint_matches_lookup_aux
    (fmt1 : Q -> str) (read : str -> option str) (output_dir f : str)
    (hf : Checkpoint.header_fields) :
  read (Resume.path_join output_dir f)
    = Some (Checkpoint.header_block fmt1 hf) ->
  Resume.matches fmt1 read output_dir (Checkpoint.size_mb hf)
    (Checkpoint.duration_min hf) f = true.
Proof.
  intros H. unfold Resume.matches. rewrite H.
  destruct (header_contains_fingerprint fmt1 hf []) as [A B].
  rewrite app_nil_r in A, B. rewrite A, B. reflexivity.
Qed.

(** X8: a checkpoint that consists of the header block written by
    [create_segmented_transcription], followed by anything, matches the
    lookup for the size and duration the header was written with. *)
Theorem created_checkpoint_matches_lookup
    (fmt1 : Q -> str) (read : str -> option str) (output_dir f : str)
    (hf : Checkpoint.header_fields) (suffix : str) :
  read (Resume.path_join output_dir f)
    = Some (Checkpoint.header_block fmt1 hf ++ suffix) ->
  Resume.matches fmt1 read output_dir (Checkpoint.size_mb hf)
    (Checkpoint.duration_min hf) f = true.
Proof.
  intros H. unfold Resume.matches. rewrite H.
  destruct (header_contains_fingerprint fmt1 hf suffix) as [-> ->].
  reflexivity.
Qed.

Lemma created_checkpoint_matches_lookup_witness :
  Resume.matches (fun _ => py "12.3")
    (fun _ => Some (Checkpoint.header_block (fun _ => py "12.3")
                      (Checkpoint.mkHeader [] [] [] 1 1 1 [] [] [] [])
                    ++ py "[0.0s - 1.0s] hello"))
    (py "out") 1 1 (py "result-a-20250101_000000.txt") = true.
Proof.
  apply (@created_checkpoint_matches_lookup (fun _ => py "12.3")
           (fun _ => Some (Checkpoint.header_block (fun _ => py "12.3")
                      (Checkpoint.mkHeader [] [] [] 1 1 1 [] [] [] [])
                    ++ py "[0.0s - 1.0s] hello"))
           (py "out") (py "result-a-20250101_000000.txt")
           (Checkpoint.mkHeader [] [] [] 1 1 1 [] [] [] [])
           (py "[0.0s - 1.0s] hello")).
  reflexivity.
Defined.

(** X9: the name given to a new checkpoint is kept by the listing filter and
    parses back to its timestamp, whatever the name of the audio file, dashes
    included: the key used for sorting is [strptime] of the timestamp text. *)
Theorem new_name_parses_back
    (strptime : str -> option Resume.datetime) (filename timestamp : str) :
  forallb Naming.stamp_char timestamp = true ->
  Resume.is_result_file (Naming.new_result_name filename timestamp) = true
  /\ Resume.parse_timestamp strptime
       (Naming.new_result_name filename timestamp)
     = strptime timestamp.
Proof.
  intros H. split.
  - unfold Resume.is_result_file, Naming.new_result_name.
    rewrite startswith_app. cbn [andb].
    rewrite !app_assoc. apply endswith_app.
  - unfold Resume.parse_timestamp, Naming.new_result_name.
    assert (D : Naming.no_char 45%N (timestamp ++ py ".txt") = true).
    { rewrite no_char_app, (@stamp_no_char 45%N timestamp eq_refl H).
      reflexivity. }
    rewrite (app_assoc (py "result-")).
    change (py "-" ++ timestamp ++ py ".txt")
      with (45%N :: timestamp ++ py ".txt").
    unfold split. rewrite split_char_app.
    rewrite (@split_go_none 45%N [] _ [] D). cbn [rev]. rewrite app_nil_l.
    unfold Resume.last_part. rewrite last_last.
    change (py "result-" ++ filename) with (py "result" ++ 45%N :: filename).
    rewrite split_char_app.
    rewrite !length_app. cbn [length].
    match goal with
    | |- context [Nat.leb 3 (?p + ?q + 1)] =>
        assert (L1 : 1 <= p) by apply split_go_nonempty;
        assert (L2 : 1 <= q) by apply split_go_nonempty;
        destruct (Nat.leb_spec 3 (p + q + 1)) as [_|B]
    end; [|lia].
    match goal with
    | |- context [remove_all ?o ?t] =>
        replace (remove_all o t) with timestamp; [reflexivity|]
    end.
    symmetry.
    apply (@remove_all_suffix 46%N (py "txt") timestamp
             (@stamp_no_char 46%N timestamp eq_refl H)).
Qed.

Lemma new_name_parses_back_witness :
  Resume.parse_timestamp LookupExample.strptime
    (Naming.new_result_name (py "my-talk") (py "20250904_101500"))
  = Some 200%N.
Proof.
  apply (proj2 (@new_name_parses_back LookupExample.strptime (py "my-talk")
                  (py "20250904_101500") eq_refl)).
Defined.

(** X10: for a checkpoint that begins with the header block of
    [create_segmented_transcription], the first sentence reported by the
    lookup is the title line of the header, whatever has been appended. *)
Theorem first_sentence_is_title_line
    (fmt1 : Q -> str) (read : str -> option str) (output_dir f : str)
    (hf : Checkpoint.header_fields) (suffix : str) :
  read (Resume.path_join output_dir f)
    = Some (Checkpoint.header_block fmt1 hf ++ suffix) ->
  Resume.answer read output_dir f
  = (Resume.path_join output_dir f, Naming.title).
Proof.
  intros H. unfold Resume.answer. rewrite H.
  destruct (header_block_parts fmt1 hf) as (mid & post & E). rewrite E.
  rewrite <- !app_assoc.
  change (Checkpoint.nl ++ mid ++ ?x) with (10%N :: mid ++ x).
  unfold split, Checkpoint.nl. cbn [app].
  rewrite split_char_app.
  change (split_go [10%N] 0 [] Naming.title) with [Naming.title].
  cbn [app]. rewrite first_sentence_title. reflexivity.
Qed.

Lemma first_sentence_is_title_line_witness :
  Resume.answer
    (fun _ => Some (Checkpoint.header_block (fun _ => py "12.3")
                      (Checkpoint.mkHeader [] [] [] 1 1 1 [] [] [] [])
                    ++ py "[0.0s - 1.0s] hello"))
    (py "out") (py "result-a-20250101_000000.txt")
  = (Resume.path_join (py "out") (py "result-a-20250101_000000.txt"),
     Naming.title).
Proof.
  apply (@first_sentence_is_title_line (fun _ => py "12.3")
           (fun _ => Some (Checkpoint.header_block (fun _ => py "12.3")
                      (Checkpoint.mkHeader [] [] [] 1 1 1 [] [] [] [])
                    ++ py "[0.0s - 1.0s] hello"))
           (py "out") (py "result-a-20250101_000000.txt")
           (Checkpoint.mkHeader [] [] [] 1 1 1 [] [] [] [])
           (py "[0.0s - 1.0s] hello")).
  reflexivity.
Defined.

(* ------------------------------------------------------------------ *)
(** ** Reading back what was appended *)

Section ReadBackFacts.

Import Checkpoint Resume Naming.

Variable parse_float : str -> option Q.




End ReadBackFacts.

(* ------------------------------------------------------------------ *)
(** ** Reading back the written file *)

Section ScanFacts.

Import Checkpoint Resume Naming.

Variable fmt1 : Q -> str.
Variable parse_float : str -> option Q.

















End ScanFacts.





(* ------------------------------------------------------------------ *)
(** ** Choosing the checkpoint *)

Section ChooseFacts.

Import Checkpoint Resume Naming.

Lemma new_name_is_result_file (filename timestamp : str) :
  is_result_file (new_result_name filename timestamp) = true.
Proof.
  unfold is_result_file, new_result_name.
  rewrite startswith_app. cbn [andb].
  rewrite !app_assoc. apply endswith_app.
Qed.

Lemma find_not_none {A : Type} (f : A -> bool) (l : list A) (x : A) :
  In x l -> f x = true -> find f l <> None.
Proof.
  intros Hin Hx Hn. rewrite (find_none f l Hn x Hin) in Hx. discriminate.
Qed.

End ChooseFacts.

(** X11: [transcribe_audio_segments] writes nothing when the lookup finds a
    checkpoint, and returns that checkpoint; when the lookup finds none it
    creates the file with the header block, and from then on a lookup over
    any listing that has the new name finds a checkpoint again. *)
Theorem choose_checkpoint
    (fmt1 : Q -> str) (strptime : str -> option Resume.datetime)
    (files : Checkpoint.fs) (output_dir : str) (listing : option (list str))
    (filename timestamp : str) (hf : Checkpoint.header_fields) :
  let lookup := fun fs l =>
    Resume.check_existing_transcription fmt1 strptime fs output_dir
      (Checkpoint.size_mb hf) (Checkpoint.duration_min hf) l in
  let name := Naming.new_result_name filename timestamp in
  let new_path := Resume.path_join output_dir name in
  let out := Naming.transcribe_audio_segments fmt1 strptime files output_dir
               listing filename timestamp hf in
  (forall p sentence,
     lookup files listing = Some (p, sentence) -> out = (p, files))
  /\ (lookup files listing = None ->
      out = (new_path,
             Checkpoint.fs_write files new_path
               (Checkpoint.header_block fmt1 hf))
      /\ forall names, In name names ->
           lookup (snd out) (Some names) <> None).
Proof.
  cbn zeta. unfold Naming.transcribe_audio_segments. split.
  - intros p sentence H. rewrite H.
    unfold Checkpoint.create_segmented_transcription.
    destruct listing as [names|]; [|discriminate].
    unfold Resume.check_existing_transcription in H.
    rewrite scan_find in H.
    destruct (find _ _) as [f|] eqn:F; [|discriminate].
    apply find_some in F as [_ M]. cbn [option_map] in H.
    unfold Resume.matches in M. unfold Resume.answer in H.
    destruct (files (Resume.path_join output_dir f)) as [content|] eqn:R;
      [|discriminate].
    assert (P : p = Resume.path_join output_dir f).
    { destruct (Resume.first_sentence _); inversion H; reflexivity. }
    rewrite P, R. reflexivity.
  - intros H. rewrite H.
    assert (O : Checkpoint.create_segmented_transcription fmt1 files None
                  (Resume.path_join output_dir
                     (Naming.new_result_name filename timestamp)) hf
                = (Resume.path_join output_dir
                     (Naming.new_result_name filename timestamp),
                   Checkpoint.fs_write files
                     (Resume.path_join output_dir
                        (Naming.new_result_name filename timestamp))
                     (Checkpoint.header_block fmt1 hf))).
    { unfold Checkpoint.create_segmented_transcription.
      rewrite close_do_ops.
      unfold Checkpoint.open_write, Checkpoint.header_block.
      cbn [Checkpoint.h_disk Checkpoint.h_buf app]. reflexivity. }
    rewrite O. split; [reflexivity|]. cbn [snd].
    intros names Hin. unfold Resume.check_existing_transcription.
    rewrite scan_find.
    set (m := Resume.matches _ _ _ _ _).
    assert (F : find m (Resume.candidates strptime names) <> None).
    { apply (find_not_none m _ (Naming.new_result_name filename timestamp)).
      - apply (Permutation_in _ (sort_desc_perm _ _)).
        apply filter_In. split; [exact Hin | apply new_name_is_result_file].
      - unfold m. apply created_checkpoint_matches_lookup_aux.
        unfold Checkpoint.fs_write. rewrite str_eqb_refl. reflexivity. }
    destruct (find m _); [discriminate | congruence].
Qed.

Lemma choose_checkpoint_witness :
  Resume.check_existing_transcription (fun _ => py "12.3")
    LookupExample.strptime
    (snd (Naming.transcribe_audio_segments (fun _ => py "12.3")
            LookupExample.strptime (fun _ => None) (py "out") None
            (py "talk") (py "20250904_101500")
            (Checkpoint.mkHeader [] [] [] 1 1 1 [] [] [] [])))
    (py "out") 1 1
    (Some [Naming.new_result_name (py "talk") (py "20250904_101500")])
  <> None.
Proof.
  apply (proj2 (proj2 (choose_checkpoint (fun _ => py "12.3")
           LookupExample.strptime (fun _ => None) (py "out") None
           (py "talk") (py "20250904_101500")
           (Checkpoint.mkHeader [] [] [] 1 1 1 [] [] [] [])) eq_refl)).
  left; reflexivity.
Defined.

(* ------------------------------------------------------------------ *)
(** ** Results of faster-whisper, and the spans of adjusted chunks *)

(** X14: a result built by [_transcribe_with_faster_whisper] has one chunk
    per segment of the second pass, each with both ends of its timestamp, so
    the adjustment of the loop shifts every chunk by the start of the slice
    and never substitutes the bounds of the slice; its text is the
    concatenation of the texts of the first pass. *)
Theorem faster_whisper_chunks_shifted
    (first_pass second_pass : list Naming.fw_segment) (S : Z) (E : Q) :
  exists r,
    Naming._transcribe_with_faster_whisper (Ok first_pass) (Ok second_pass)
      = Ok r
    /\ r_text r = Some (concat (map Naming.seg_text first_pass))
    /\ chunks_of (Segments.adjust_result S E r)
       = map (fun s =>
                mkChunk (Naming.seg_text s)
                  (Some [Some (Naming.seg_start s + inject_Z S)%Q;
                         Some (Naming.seg_end s + inject_Z S)%Q]))
             second_pass.
Proof.
  eexists. split; [reflexivity|]. split; [reflexivity|].
  unfold Segments.adjust_result, chunks_of. cbn [r_chunks r_text].
  destruct second_pass as [|s l]; [reflexivity|].
  cbn [map r_chunks]. rewrite map_map. reflexivity.
Qed.

(** X15: the adjustment keeps times in order: for a chunk with both ends
    present and 0 <= a <= b the adjusted span starts at or after the start of
    the slice and its start is not after its end; of two such chunks of one
    slice, one ending before the other starts still does so after the
    adjustment; a substituted span starts at the start of the slice and, for
    a slice whose start is not after its end, its start is not after its
    end. *)
Theorem adjusted_span_ordered (S : Z) (E : Q) (c d : chunk) :
  (forall a b rest,
     c_timestamp c = Some (Some a :: Some b :: rest) ->
     (0 <= a)%Q -> (a <= b)%Q ->
     exists a' b',
       c_timestamp (Segments.adjust_chunk S E c) = Some [Some a'; Some b']
       /\ (inject_Z S <= a')%Q /\ (a' <= b')%Q)
  /\ (forall a b rest a2 b2 rest2,
        c_timestamp c = Some (Some a :: Some b :: rest) ->
        c_timestamp d = Some (Some a2 :: Some b2 :: rest2) ->
        (b <= a2)%Q ->
        exists a' b' a2' b2',
          c_timestamp (Segments.adjust_chunk S E c) = Some [Some a'; Some b']
          /\ c_timestamp (Segments.adjust_chunk S E d)
             = Some [Some a2'; Some b2']
          /\ (b' <= a2')%Q)
  /\ (forall t0 t1 rest,
        c_timestamp c = Some (t0 :: t1 :: rest) ->
        t0 = None \/ t1 = None ->
        (inject_Z S <= E)%Q ->
        exists a' b',
          c_timestamp (Segments.adjust_chunk S E c) = Some [Some a'; Some b']
          /\ a' = inject_Z S /\ (a' <= b')%Q).
Proof.
  split; [|split].
  - intros a b rest H Ha Hab. unfold Segments.adjust_chunk. rewrite H.
    eexists; eexists. split; [reflexivity|]. split; lra.
  - intros a b rest a2 b2 rest2 H H2 L. unfold Segments.adjust_chunk.
    rewrite H, H2. do 4 eexists. split; [reflexivity|].
    split; [reflexivity | lra].
  - intros t0 t1 rest H M L. unfold Segments.adjust_chunk. rewrite H.
    destruct t0, t1; try (destruct M; discriminate);
      (eexists; eexists; split; [reflexivity|]; split; [reflexivity | lra]).
Qed.

Lemma adjusted_span_ordered_witness :
  exists a' b',
    c_timestamp (Segments.adjust_chunk 60 120
                   (mkChunk (py "hello") (Some [Some 1.5%Q; Some 4%Q])))
      = Some [Some a'; Some b']
    /\ (inject_Z 60 <= a')%Q /\ (a' <= b')%Q.
Proof.
  apply (proj1 (adjusted_span_ordered 60 120
                  (mkChunk (py "hello") (Some [Some 1.5%Q; Some 4%Q]))
                  (mkChunk (py "hello") None))
           1.5%Q 4%Q [] eq_refl);
    vm_compute; discriminate.
Defined.

(* ------------------------------------------------------------------ *)
(** ** The loaded model and the fallback *)

(** X16: [load_model] leaves one of three name and type pairs, and raises only
    when the standard Whisper model, its last resort, fails to load.  With
    the model it leaves, [transcribe_with_fallback] runs a backup only if the
    Breeze model was loaded, and never after a faster-whisper primary. *)
Theorem loaded_model_and_fallback
    (FASTER_WHISPER_AVAILABLE : bool)
    (load_breeze load_faster_whisper load_standard : outcome unit)
    (run : Adapter.backend -> outcome result) :
  let loaded := Loader.load_model FASTER_WHISPER_AVAILABLE load_breeze
                  load_faster_whisper load_standard in
  (forall e, loaded = Raise e ->
     load_standard = Raise e /\ exists e', load_breeze = Raise e')
  /\ (forall name type,
        loaded = Ok (name, type) ->
        let call := Adapter.transcribe_with_fallback type name
                      FASTER_WHISPER_AVAILABLE run in
        ((name, type) = (py "Breeze-ASR-25", py "transformers")
         \/ ((name, type) = (py "faster-whisper", py "faster-whisper")
             /\ FASTER_WHISPER_AVAILABLE = true)
         \/ (name, type) = (py "Whisper", py "transformers"))
        /\ (name <> py "Breeze-ASR-25" ->
            fst call = [Adapter.primary_backend type])
        /\ (In Adapter.PrimaryFasterWhisper (fst call) ->
            fst call = [Adapter.PrimaryFasterWhisper])).
Proof.
  cbn zeta. unfold Loader.load_model. split.
  - intros e H. destruct load_breeze as [u0|e0]; [discriminate|].
    split; [|eexists; reflexivity].
    destruct FASTER_WHISPER_AVAILABLE;
      [destruct load_faster_whisper; [discriminate|]|];
      destruct load_standard; congruence.
  - intros name type H.
    assert (C : (name, type) = (py "Breeze-ASR-25", py "transformers")
                \/ ((name, type) = (py "faster-whisper", py "faster-whisper")
                    /\ FASTER_WHISPER_AVAILABLE = true)
                \/ (name, type) = (py "Whisper", py "transformers")).
    { destruct load_breeze; [left; congruence|].
      destruct FASTER_WHISPER_AVAILABLE.
      - destruct load_faster_whisper; [right; left; split; congruence|].
        destruct load_standard; [right; right; congruence | discriminate].
      - destruct load_standard; [right; right; congruence | discriminate]. }
    split; [exact C|].
    clear H. unfold Adapter.transcribe_with_fallback.
    destruct C as [C|[[C _]|C]]; inversion C; subst name type; clear C.
    + split; [intros N; contradiction N; reflexivity|].
      change (Adapter.primary_backend (py "transformers"))
        with Adapter.PrimaryPipeline.
      destruct (run Adapter.PrimaryPipeline) as [r0|e];
        [|cbn; intros [X|[]]; discriminate].
      destruct (r_text r0) as [t|]; [|cbn; intros [X|[]]; discriminate].
      destruct (Adapter.needs_backup _);
        [|cbn; intros [X|[]]; discriminate].
      change (Adapter.is_breeze (py "Breeze-ASR-25")) with true. cbv iota.
      destruct FASTER_WHISPER_AVAILABLE.
      * destruct (run Adapter.BackupFasterWhisper); cbn;
          intros H; repeat (destruct H as [H|H]; try discriminate);
          contradiction.
      * cbn. intros H; repeat (destruct H as [H|H]; try discriminate);
          contradiction.
    + change (Adapter.primary_backend (py "faster-whisper"))
        with Adapter.PrimaryFasterWhisper.
      change (Adapter.is_breeze (py "faster-whisper")) with false.
      destruct (run Adapter.PrimaryFasterWhisper) as [r0|e]; [|cbn; auto].
      destruct (r_text r0) as [t|]; [|cbn; auto].
      destruct (Adapter.needs_backup _); cbn; auto.
    + change (Adapter.primary_backend (py "transformers"))
        with Adapter.PrimaryPipeline.
      change (Adapter.is_breeze (py "Whisper")) with false.
      destruct (run Adapter.PrimaryPipeline) as [r0|e];
        [|cbn; split; [auto | intros [X|[]]; discriminate]].
      destruct (r_text r0) as [t|];
        [|cbn; split; [auto | intros [X|[]]; discriminate]].
      destruct (Adapter.needs_backup _); cbn;
        (split; [auto | intros [X|[]]; discriminate]).
Qed.

Lemma loaded_model_and_fallback_witness :
  fst (Adapter.transcribe_with_fallback (py "faster-whisper")
         (py "faster-whisper") true
         (fun _ => Ok (mkResult (Some []) None)))
  = [Adapter.primary_backend (py "faster-whisper")].
Proof.
  apply (proj1 (proj2 (proj2 (loaded_model_and_fallback true
           (Raise "OSError"%string) (Ok tt) (Ok tt)
           (fun _ => Ok (mkResult (Some []) None)))
           (py "faster-whisper") (py "faster-whisper") eq_refl))).
  discriminate.
Defined.

(* ------------------------------------------------------------------ *)
(** ** Silence detection and removal *)

Section SilenceFacts.

Import Silence.

Variable parse_float : str -> option Q.

(** Every recorded span uses up one start line and one end line. *)
Lemma silence_fold_bound (lines : list str) (st : list (Q * Q) * option Q) :
  let st' := fold_left (silence_step parse_float) lines st in
  length (fst st') + pending (snd st')
    <= length (fst st) + pending (snd st)
       + length (filter (contains (py "silence_start:")) lines)
  /\ length (fst st')
     <= length (fst st)
        + length (filter (contains (py "silence_end:")) lines).
Proof.
  cbn zeta. revert st; induction lines as [|l lines IH]; intros st.
  - cbn [fold_left filter length]. lia.
  - cbn [fold_left filter].
    destruct (IH (silence_step parse_float st l)) as [A B].
    assert (S : length (fst (silence_step parse_float st l))
                + pending (snd (silence_step parse_float st l))
                <= length (fst st) + pending (snd st)
                   + (if contains (py "silence_start:") l then 1 else 0)
                /\ length (fst (silence_step parse_float st l))
                   <= length (fst st)
                      + (if contains (py "silence_end:") l then 1 else 0)).
    { destruct st as [segs cur]. unfold silence_step.
      destruct (contains (py "silence_start:") l).
      - destruct (number_after _ _ _); destruct cur; cbn; lia.
      - destruct cur as [c|]; [|cbn; lia].
        destruct (contains (py "silence_end:") l); [|cbn; lia].
        destruct (number_after _ _ _); cbn; rewrite ?length_app; cbn; lia. }
    destruct S as [S1 S2].
    destruct (contains (py "silence_start:") l);
      destruct (contains (py "silence_end:") l); cbn [length]; lia.
Qed.

Lemma last_cons_default {A : Type} (l : list A) (x d d' : A) :
  last (x :: l) d = last (x :: l) d'.
Proof.
  revert x; induction l as [|y l IH]; intros x; [reflexivity|].
  change (last (y :: l) d = last (y :: l) d'). apply IH.
Qed.

Lemma kept_fold_current (min_gap : Q) (l : list (Q * Q))
    (st : list (Q * Q) * Q) :
  snd (fold_left (kept_step min_gap) l st) = snd (last l (0%Q, snd st)).
Proof.
  revert st; induction l as [|[a b] l IH]; intros [t c]; [reflexivity|].
  cbn [fold_left]. rewrite IH. unfold kept_step. cbn [snd].
  destruct l as [|p l]; [reflexivity|].
  change (last ((a, b) :: p :: l) (0%Q, c)) with (last (p :: l) (0%Q, c)).
  rewrite (last_cons_default l p (0%Q, b) (0%Q, c)). reflexivity.
Qed.

Lemma nonempty_snoc {A : Type} (l : list A) (x : A) :
  nonempty (l ++ [x]) = true.
Proof. destruct l; reflexivity. Qed.

(** With the last silent span ending before the sentinel there always is a
    span to keep. *)
Lemma kept_segments_nonempty (min_gap : Q) (l : list (Q * Q)) :
  l <> [] -> Qlt_bool (snd (last l (0%Q, 0%Q))) 1000000 = true ->
  nonempty (kept_segments min_gap l) = true.
Proof.
  intros N H. unfold kept_segments.
  pose proof (kept_fold_current min_gap l ([], 0%Q)) as C.
  destruct (fold_left (kept_step min_gap) l ([], 0%Q)) as [t c].
  cbn [snd] in C. rewrite C, H. apply nonempty_snoc.
Qed.

End SilenceFacts.

(** X17: [_detect_silence_segments] never reports more silent spans than the
    diagnostic text has lines with a start marker, nor more than it has lines
    with an end marker; it reports none when ffmpeg could not be run. *)
Theorem silence_spans_bounded (parse_float : str -> option Q) (text : str)
    (e : exn) :
  let spans := Silence._detect_silence_segments parse_float (Ok text) in
  length spans <= length (Silence.lines_with (py "silence_start:") text)
  /\ length spans <= length (Silence.lines_with (py "silence_end:") text)
  /\ Silence._detect_silence_segments parse_float (Raise e) = [].
Proof.
  cbn zeta. unfold Silence._detect_silence_segments, Silence.lines_with.
  destruct (silence_fold_bound parse_float (split Checkpoint.nl text)
              ([], None)) as [A B].
  cbn [fst snd length Silence.pending] in A, B.
  split; [lia|]. split; [lia | reflexivity].
Qed.

(** X18: [_remove_silence_segments] returns the audio path it was given or
    the output path; the output path only after ffmpeg returned 0; and the
    spans it was given do not matter beyond being there: for any two
    non-empty lists of spans that end before the sentinel of 1000000 seconds
    the result is the same. *)
Theorem silence_removal_ignores_spans
    (prepare : outcome unit) (ffmpeg : outcome Z)
    (getsize : str -> outcome Z) (audio_path output_path : str)
    (min_gap : Q) (spans spans' : list (Q * Q)) :
  let remove := Silence._remove_silence_segments prepare ffmpeg getsize
                  audio_path output_path in
  (remove spans min_gap = audio_path \/ remove spans min_gap = output_path)
  /\ remove [] min_gap = audio_path
  /\ (remove spans min_gap <> audio_path -> ffmpeg = Ok 0%Z)
  /\ (spans <> [] -> spans' <> [] ->
      Qlt_bool (snd (last spans (0%Q, 0%Q))) 1000000 = true ->
      Qlt_bool (snd (last spans' (0%Q, 0%Q))) 1000000 = true ->
      remove spans min_gap = remove spans' min_gap).
Proof.
  cbn zeta. unfold Silence._remove_silence_segments.
  split; [|split; [reflexivity|split]].
  - destruct spans; [auto|]. destruct prepare; [|auto].
    destruct (negb _); [auto|]. destruct ffmpeg as [rc|]; [|auto].
    destruct (rc =? 0)%Z; [|auto].
    destruct (getsize audio_path) as [o|]; [|auto].
    destruct (getsize output_path); [|auto].
    destruct (o =? 0)%Z; auto.
  - destruct spans; [congruence|]. destruct prepare; [|congruence].
    destruct (negb _); [congruence|]. destruct ffmpeg as [rc|]; [|congruence].
    destruct (Z.eqb_spec rc 0); [subst; reflexivity | congruence].
  - intros N N' H H'.
    rewrite (kept_segments_nonempty min_gap N H).
    rewrite (kept_segments_nonempty min_gap N' H').
    destruct spans; [congruence|]. destruct spans'; [congruence|].
    reflexivity.
Qed.

Lemma silence_removal_ignores_spans_witness :
  Silence._remove_silence_segments (Ok tt) (Ok 0%Z) (fun _ => Ok 10%Z)
    (py "a.wav") (py "temp/a_no_silence.wav") [(1, 2)%Q] 0.5
  = Silence._remove_silence_segments (Ok tt) (Ok 0%Z) (fun _ => Ok 10%Z)
      (py "a.wav") (py "temp/a_no_silence.wav") [(3, 4)%Q; (7, 9)%Q] 0.5.
Proof.
  apply (proj2 (proj2 (proj2 (silence_removal_ignores_spans (Ok tt) (Ok 0%Z)
           (fun _ => Ok 10%Z) (py "a.wav") (py "temp/a_no_silence.wav")
           0.5 [(1, 2)%Q] [(3, 4)%Q; (7, 9)%Q]))));
    try discriminate; reflexivity.
Defined.

(* ------------------------------------------------------------------ *)
(** ** Saving a whole result *)

Section SaveResultFacts.

Import Checkpoint SaveResult.

Variable fmt1 : Q -> str.

Lemma save_result_content (existing : option str) (hf : fields)
    (r : result) :
  save_result fmt1 existing hf r
  = match existing with
    | Some content => content ++ continuation_line (f_now hf)
    | None => concat (map written (header_ops fmt1 hf))
    end ++ concat (map written (body_ops fmt1 r)).
Proof.
  unfold save_result. rewrite close_do_ops.
  cbn [h_disk h_buf open_append app]. f_equal.
  destruct existing as [content|]; rewrite close_do_ops;
    cbn [h_disk h_buf open_append open_write app map written concat].
  - rewrite app_nil_r. reflexivity.
  - reflexivity.
Qed.

Lemma strip_continuation (now : str) :
  strip (continuation_text now) = continuation_text now.
Proof.
  unfold strip, continuation_text.
  change (lstrip (py "--- 續轉結果 (" ++ now ++ py ") ---"))
    with (py "--- 續轉結果 (" ++ now ++ py ") ---").
  assert (E : py "--- 續轉結果 (" ++ now ++ py ") ---"
              = ((py "--- 續轉結果 (" ++ now ++ py ") --") ++ [45%N]) ++ []).
  { rewrite app_nil_r, <- !app_assoc. reflexivity. }
  rewrite E at 1. rewrite rstrip_app by reflexivity.
  rewrite E. reflexivity.
Qed.

End SaveResultFacts.

(** X19: [save_result] on an existing file keeps its content in front and adds
    the continuation line and the body; the body has one line for every chunk
    of the result, with the text of the chunk as it is: the timed line for a
    pair with both ends, the error line for a pair with a missing end, the
    unknown-timestamp line for a chunk without a pair.  For a pair with a
    missing end [save_result_realtime] writes the unknown-timestamp line
    instead, when the text passes the filter. *)
Theorem save_result_appends_every_chunk
    (fmt1 : Q -> str) (content : str) (hf : SaveResult.fields) (r : result) :
  SaveResult.save_result fmt1 (Some content) hf r
    = content ++ SaveResult.continuation_line (SaveResult.f_now hf)
      ++ concat (map Checkpoint.written (SaveResult.body_ops fmt1 r))
  /\ (chunks_of r <> [] ->
      concat (map Checkpoint.written (SaveResult.body_ops fmt1 r))
        = concat (map (SaveResult.chunk_line fmt1) (chunks_of r)))
  /\ (forall c,
        (forall a b rest,
           c_timestamp c = Some (Some a :: Some b :: rest) ->
           SaveResult.chunk_line fmt1 c
           = Checkpoint.timed_line fmt1 a b (c_text c))
        /\ (forall t0 t1 rest,
              c_timestamp c = Some (t0 :: t1 :: rest) ->
              t0 = None \/ t1 = None ->
              SaveResult.chunk_line fmt1 c
              = SaveResult.error_line (c_text c)
              /\ (nonempty
                    (strip (Filter._filter_repetitive_content (c_text c)))
                    = true ->
                  Checkpoint.chunk_ops fmt1 c
                  = [Checkpoint.Write (Checkpoint.unknown_line (c_text c));
                     Checkpoint.Flush]))
        /\ (c_timestamp c = None \/ c_timestamp c = Some []
            \/ (exists t, c_timestamp c = Some [t]) ->
            SaveResult.chunk_line fmt1 c
            = Checkpoint.unknown_line (c_text c))).
Proof.
  split; [|split].
  - rewrite save_result_content, <- app_assoc. reflexivity.
  - intros N. unfold SaveResult.body_ops.
    destruct (chunks_of r); [congruence|]. rewrite map_map. reflexivity.
  - intros c. split; [|split].
    + intros a b rest H. unfold SaveResult.chunk_line. rewrite H. reflexivity.
    + intros t0 t1 rest H M. split.
      * unfold SaveResult.chunk_line. rewrite H.
        destruct t0, t1; try reflexivity. destruct M; discriminate.
      * intros K. unfold Checkpoint.chunk_ops. rewrite H.
        pose proof (@filter_survivor _ K) as F. rewrite F in K |- *.
        rewrite K. destruct (c_text c); [discriminate|].
        destruct t0, t1; try reflexivity. destruct M; discriminate.
    + intros H. unfold SaveResult.chunk_line.
      destruct H as [H|[H|[t H]]]; rewrite H; reflexivity.
Qed.

Lemma save_result_appends_every_chunk_witness :
  SaveResult.chunk_line (fun _ => py "0.0")
    (mkChunk (py "hello world") (Some [Some 1%Q; None]))
  = SaveResult.error_line (py "hello world")
  /\ Checkpoint.chunk_ops (fun _ => py "0.0")
       (mkChunk (py "hello world") (Some [Some 1%Q; None]))
     = [Checkpoint.Write (Checkpoint.unknown_line (py "hello world"));
        Checkpoint.Flush].
Proof.
  destruct (proj1 (proj2 (proj2 (proj2 (save_result_appends_every_chunk
              (fun _ => py "0.0") [] (SaveResult.mkFields [] 0 0 0 [] [] 0 [])
              (mkResult None None)))
              (mkChunk (py "hello world") (Some [Some 1%Q; None]))))
              (Some 1%Q) None [] eq_refl (or_intror eq_refl)) as [L K].
  split; [exact L | apply K; reflexivity].
Defined.

(** X20: a file made by [save_result] is a candidate for the lookup with the
    size and duration of its header, and the continuation line that
    [save_result] adds to an existing file is never taken for the first
    sentence. *)
Theorem save_result_file_resumable
    (fmt1 : Q -> str) (read : str -> option str) (output_dir f : str)
    (hf : SaveResult.fields) (r : result) (now : str) (rest : list str) :
  (read (Resume.path_join output_dir f)
     = Some (SaveResult.save_result fmt1 None hf r) ->
   Resume.matches fmt1 read output_dir (SaveResult.f_size_mb hf)
     (SaveResult.f_duration_min hf) f = true)
  /\ Resume.first_sentence (SaveResult.continuation_text now :: rest)
     = Resume.first_sentence rest.
Proof.
  split.
  - intros H. unfold Resume.matches. rewrite H, save_result_content.
    set (body := concat (map Checkpoint.written (SaveResult.body_ops fmt1 r))).
    assert (E : exists pre post,
              concat (map Checkpoint.written (SaveResult.header_ops fmt1 hf))
              = pre
                ++ (Resume.size_line fmt1 (SaveResult.f_size_mb hf)
                    ++ Checkpoint.nl)
                ++ (Resume.duration_line fmt1 (SaveResult.f_duration_min hf)
                    ++ Checkpoint.nl)
                ++ post).
    { eexists (concat (map Checkpoint.written
                         (firstn 6 (SaveResult.header_ops fmt1 hf)))).
      eexists (concat (map Checkpoint.written
                         (skipn 8 (SaveResult.header_ops fmt1 hf)))).
      unfold SaveResult.header_ops, Resume.size_line, Resume.duration_line.
      cbn [firstn skipn map Checkpoint.written concat].
      repeat (rewrite <- ?app_assoc; cbn [app]).
      reflexivity. }
    destruct E as (pre & post & ->).
    rewrite <- !app_assoc.
    rewrite (contains_mid (Resume.size_line fmt1 (SaveResult.f_size_mb hf))).
    rewrite (app_assoc pre), (app_assoc (pre ++ _)).
    rewrite (contains_mid
               (Resume.duration_line fmt1 (SaveResult.f_duration_min hf))).
    reflexivity.
  - cbn [Resume.first_sentence]. rewrite strip_continuation.
    assert (P : forallb
                  (fun p => negb (startswith p
                                    (SaveResult.continuation_text now)))
                  Resume.skipped_prefixes = false).
    { unfold Resume.skipped_prefixes. cbn [forallb].
      replace (startswith (py "--- 續轉結果")
                 (SaveResult.continuation_text now)) with true.
      - cbn [negb]. rewrite !andb_false_r. reflexivity.
      - symmetry.
        change (SaveResult.continuation_text now)
          with (py "--- 續轉結果" ++ py " (" ++ now ++ py ") ---").
        apply startswith_app. }
    rewrite P, andb_false_r. reflexivity.
Qed.

Lemma save_result_file_resumable_witness :
  Resume.matches (fun _ => py "12.3")
    (fun _ => Some (SaveResult.save_result (fun _ => py "12.3") None
                      (SaveResult.mkFields [] 0 1 1 [] [] 0 [])
                      (mkResult (Some (py "hello")) None)))
    (py "out") 1 1 (py "result-a-20250101_000000.txt") = true.
Proof.
  apply (proj1 (save_result_file_resumable (fun _ => py "12.3")
           (fun _ => Some (SaveResult.save_result (fun _ => py "12.3") None
                      (SaveResult.mkFields [] 0 1 1 [] [] 0 [])
                      (mkResult (Some (py "hello")) None)))
           (py "out") (py "result-a-20250101_000000.txt")
           (SaveResult.mkFields [] 0 1 1 [] [] 0 [])
           (mkResult (Some (py "hello")) None) [] [])).
  reflexivity.
Defined.

(* ------------------------------------------------------------------ *)
(** ** The per-file loop *)

Section RunnerFacts.

Import Runner.

Variable check_existing : str -> outcome bool.
Variable resume_complete : str -> outcome bool.
Variable transcribe_audio : str -> outcome unit.
Variable display_result : str -> outcome unit.

Lemma run_log (audio_files : list str) (log : list event) :
  fold_left (file_body check_existing resume_complete transcribe_audio
               display_result) audio_files log
  = log ++ flat_map (fun f => fst (try_file check_existing resume_complete
                                     transcribe_audio display_result f))
             audio_files.
Proof.
  revert log; induction audio_files as [|f l IH]; intros log.
  - cbn. rewrite app_nil_r. reflexivity.
  - cbn [fold_left flat_map]. rewrite IH. unfold file_body.
    rewrite <- app_assoc. reflexivity.
Qed.

(** The calls made for one file. *)
Lemma try_file_events (f : str) (ev : event) :
  In ev (fst (try_file check_existing resume_complete transcribe_audio
                display_result f)) ->
  (ev = Checked f)
  \/ (ev = Resumed f /\ check_existing f = Ok true)
  \/ ((ev = Transcribed f \/ ev = Displayed f)
      /\ (check_existing f = Ok false
          \/ (check_existing f = Ok true /\ resume_complete f = Ok false))).
Proof.
  unfold try_file.
  destruct (check_existing f) as [[|]|e]; cbn [fst].
  - destruct (resume_complete f) as [[|]|e2]; cbn [fst].
    + cbn. intros [H|[H|[]]]; subst; auto.
    + destruct (transcribe_audio f); cbn [fst app];
        cbn; intros H;
        repeat (destruct H as [H|H]; [subst; auto 10|]); contradiction.
    + cbn. intros [H|[H|[]]]; subst; auto.
  - destruct (transcribe_audio f); cbn [fst app];
      cbn; intros H;
      repeat (destruct H as [H|H]; [subst; auto 10|]); contradiction.
  - cbn. intros [H|[]]; subst; auto.
Qed.

Lemma try_file_checked (f : str) :
  exists rest,
    fst (try_file check_existing resume_complete transcribe_audio
           display_result f) = Checked f :: rest
    /\ forall g, ~ In (Checked g) rest.
Proof.
  unfold try_file.
  destruct (check_existing f) as [[|]|e]; cbn [fst].
  - destruct (resume_complete f) as [[|]|e2]; cbn [fst];
      try destruct (transcribe_audio f); cbn [fst app];
      (eexists; split; [reflexivity|]); cbn; intros g H;
      repeat (destruct H as [H|H]; [discriminate|]); contradiction.
  - destruct (transcribe_audio f); cbn [fst app];
      (eexists; split; [reflexivity|]); cbn; intros g H;
      repeat (destruct H as [H|H]; [discriminate|]); contradiction.
  - eexists; split; [reflexivity|]. cbn. auto.
Qed.

End RunnerFacts.

Lemma checked_files_none (log : list Runner.event) :
  (forall g, ~ In (Runner.Checked g) log) -> Runner.checked_files log = [].
Proof.
  induction log as [|ev log IH]; intros H; [reflexivity|].
  unfold Runner.checked_files in *. cbn [flat_map].
  rewrite IH by (intros g G; apply (H g); right; exact G).
  destruct ev; try reflexivity. exfalso. apply (H f). left; reflexivity.
Qed.

Lemma checked_files_of_run
    (check_existing resume_complete : str -> outcome bool)
    (transcribe_audio display_result : str -> outcome unit)
    (audio_files : list str) :
  Runner.checked_files
    (flat_map (fun f => fst (Runner.try_file check_existing resume_complete
                               transcribe_audio display_result f))
       audio_files)
  = audio_files.
Proof.
  induction audio_files as [|f l IH]; [reflexivity|].
  cbn [flat_map]. unfold Runner.checked_files in *.
  rewrite flat_map_app, IH.
  destruct (try_file_checked check_existing resume_complete
              transcribe_audio display_result f) as (rest & -> & N).
  cbn [flat_map]. fold (Runner.checked_files rest).
  rewrite (checked_files_none rest N). reflexivity.
Qed.

(** X21: [run] stops before the first file only when [load_model] raises;
    otherwise it checks every audio file, in order, whatever fails for the
    files before it; it transcribes a file only when no checkpoint was found
    or the checkpoint is not complete, and never a file whose checkpoint
    [resume_transcription] reports complete. *)
Theorem run_checks_every_file
    (load_model : outcome unit)
    (check_existing resume_complete : str -> outcome bool)
    (transcribe_audio display_result : str -> outcome unit)
    (audio_files : list str) :
  let result := Runner.run load_model check_existing resume_complete
                  transcribe_audio display_result audio_files in
  (forall e, load_model = Raise e -> result = Raise e)
  /\ (forall u, load_model = Ok u ->
      exists log,
        result = Ok log
        /\ Runner.checked_files log = audio_files
        /\ (forall f, In (Runner.Transcribed f) log ->
              check_existing f = Ok false
              \/ (check_existing f = Ok true
                  /\ resume_complete f = Ok false))
        /\ (forall f, check_existing f = Ok true ->
              resume_complete f = Ok true ->
              ~ In (Runner.Transcribed f) log)).
Proof.
  cbn zeta. unfold Runner.run. split; [intros e ->; reflexivity|].
  intros u ->. eexists. split; [reflexivity|].
  rewrite run_log. cbn [app].
  assert (T : forall f,
            In (Runner.Transcribed f)
               (flat_map (fun f0 =>
                  fst (Runner.try_file check_existing resume_complete
                         transcribe_audio display_result f0)) audio_files) ->
            check_existing f = Ok false
            \/ (check_existing f = Ok true /\ resume_complete f = Ok false)).
  { intros f H. apply in_flat_map in H as (g & _ & H).
    apply try_file_events in H.
    destruct H as [H|[[H _]|[[H|H] C]]]; try discriminate.
    inversion H; subst. exact C. }
  split; [|split; [exact T|]].
  - apply checked_files_of_run.
  - intros f C R H. destruct (T f H) as [X|[_ X]]; congruence.
Qed.

Lemma run_checks_every_file_witness :
  exists log,
    Runner.run (Ok tt)
      (fun f => if str_eqb f (py "source.mp3")
                then Raise "OSError"%string else Ok true)
      (fun _ => Ok true) (fun _ => Ok tt) (fun _ => Ok tt)
      [py "source.aac"; py "source.mp3"; py "source.wav"]
    = Ok log
    /\ Runner.checked_files log
       = [py "source.aac"; py "source.mp3"; py "source.wav"].
Proof.
  destruct (proj2 (run_checks_every_file (Ok tt)
      (fun f => if str_eqb f (py "source.mp3")
                then Raise "OSError"%string else Ok true)
      (fun _ => Ok true) (fun _ => Ok tt) (fun _ => Ok tt)
      [py "source.aac"; py "source.mp3"; py "source.wav"]) tt eq_refl)
    as (log & E & C & _).
  exists log. split; [exact E | exact C].
Defined.
